(** * Near-Earth objects and close approaches: models and writers

    A shallow embedding of [models.py] (the classes [NearEarthObject] and
    [CloseApproach]) and of [write.py] ([write_to_csv], [write_to_json]),
    together with the part of the Python runtime these functions rest on:
    truthiness, [float(...)], [str(...)] of a float, [','.join(...)] and
    [json.dump].

    The renderings for people ([fullname], [__str__], [__repr__]) and the
    formatting they rest on are in the module [Render].

    Conventions.
    - A Python [str] is a Rocq [string] whose characters are read as the code
      points 0..255.
    - A Python [float] is a [spec_float] of the Standard Library, used at
      binary64 (precision 53, maximal exponent 1024).
    - A computation that may raise returns a [result]; a computation that
      also touches files is a function from the file system to a new file
      system and a [result]. *)

From Stdlib Require Import ZArith List Bool Ascii String Lia.
From Stdlib Require Import Floats.SpecFloat Numbers.DecimalString.
From stdpp Require Import base option gmap strings.

Local Open Scope string_scope.
Local Open Scope Z_scope.

(** ** Exceptions and results *)

Module Py.

(** The exception classes that the modelled code can raise. *)
Inductive PyErr : Type :=
  | KeyError (msg : string)
  | ValueError
  | TypeError
  | OverflowError
  | AttributeError
  | OSError.

Inductive result (A : Type) : Type :=
  | OK (a : A)
  | Raise (e : PyErr).
Arguments OK {A} a.
Arguments Raise {A} e.

Definition bind {A B} (r : result A) (k : A -> result B) : result B :=
  match r with
  | OK a => k a
  | Raise e => Raise e
  end.

Notation "'let*' x ':=' c 'in' k" := (bind c (fun x => k))
  (at level 10, x name, c at level 100, k at level 200).

Fixpoint mapM {A B} (f : A -> result B) (l : list A) : result (list B) :=
  match l with
  | [] => OK []
  | a :: l' => let* b := f a in let* bs := mapM f l' in OK (b :: bs)
  end.

(** ** Floats *)

Definition float : Type := spec_float.

Definition prec : Z := 53.
Definition emax : Z := 1024.

Definition nan : float := S754_nan.
Definition fzero : float := S754_zero false.

(** [x != 0.0]: the truth value of a float. Both zeros are false, a NaN is
    true. *)
Definition float_truthy (x : float) : bool :=
  match x with
  | S754_zero _ => false
  | _ => true
  end.

Definition float_is_nan (x : float) : bool :=
  match x with
  | S754_nan => true
  | _ => false
  end.

(** The binary64 number nearest to [(-1)^s * m * 10^e] (ties to even). *)
Definition float_of_decimal (s : bool) (m : N) (e : Z) : float :=
  match m with
  | N0 => S754_zero s
  | Npos p =>
      if 0 <=? e
      then binary_round prec emax s (p * Z.to_pos (10 ^ e))%positive 0
      else SFdiv prec emax (S754_finite s p 0)
                           (S754_finite false (Z.to_pos (10 ^ (- e))) 0)
  end.

(** [float(n)] for an [int]: the nearest binary64 number, or
    [OverflowError] when that is not finite. *)
Definition float_of_int (z : Z) : result float :=
  match binary_normalize prec emax z 0 false with
  | S754_infinity _ => Raise OverflowError
  | x => OK x
  end.

(** ** Characters and strings *)

Definition code (c : ascii) : N := N_of_ascii c.

Definition is_digit (c : ascii) : bool :=
  ((48 <=? code c) && (code c <=? 57))%N.

Definition digit_val (c : ascii) : N := (code c - 48)%N.

(** [Py_ISSPACE]: tab, line feed, vertical tab, form feed, carriage return
    and space. *)
Definition is_space (c : ascii) : bool :=
  (((9 <=? code c) && (code c <=? 13)) || (code c =? 32))%N.

(** ASCII lower-casing of one character. *)
Definition lower (c : ascii) : ascii :=
  if ((65 <=? code c) && (code c <=? 90))%N
  then ascii_of_N (code c + 32)
  else c.

Fixpoint string_map (f : ascii -> ascii) (s : string) : string :=
  match s with
  | EmptyString => EmptyString
  | String c s' => String (f c) (string_map f s')
  end.

(** The longest run of decimal digits at the head of [s], most significant
    first, and what follows it. *)
Fixpoint span_digits (s : string) : list N * string :=
  match s with
  | String c s' =>
      if is_digit c
      then let '(ds, rest) := span_digits s' in (digit_val c :: ds, rest)
      else ([], s)
  | EmptyString => ([], EmptyString)
  end.

Definition digits_value (ds : list N) : N :=
  fold_left (fun acc d => 10 * acc + d)%N ds 0%N.

(** ** [float(s)] for a string

    [PyFloat_FromString]: characters above 127 become a space (the two
    Unicode spaces below 256) or a question mark; underscores are accepted
    between digits only and removed; white space is stripped at both ends;
    what is left must be, as a whole, a decimal literal or a spelling of an
    infinity or of a NaN. *)

Definition to_ascii_space (c : ascii) : ascii :=
  if (code c <? 128)%N then c
  else if ((code c =? 133) || (code c =? 160))%N then " "%char
  else "?"%char.

Definition is_underscore (c : ascii) : bool := (code c =? 95)%N.

(** [_Py_string_to_number_with_underscores]; [prev] is the character just
    read (the zero character at the start). *)
Fixpoint remove_underscores (prev : ascii) (s : string) : option string :=
  match s with
  | EmptyString => if is_underscore prev then None else Some EmptyString
  | String c s' =>
      if is_underscore c
      then if is_digit prev then remove_underscores c s' else None
      else if is_underscore prev && negb (is_digit c) then None
      else option_map (String c) (remove_underscores c s')
  end.

Fixpoint lstrip (s : string) : string :=
  match s with
  | String c s' => if is_space c then lstrip s' else s
  | EmptyString => EmptyString
  end.

(** Strips trailing white space, keeping at least one character of a
    non-empty string ([while (s < last - 1 && Py_ISSPACE(last[-1]))]). *)
Fixpoint rstrip (s : string) : string :=
  match s with
  | EmptyString => EmptyString
  | String c s' =>
      match rstrip s' with
      | EmptyString => String c EmptyString
      | String d EmptyString =>
          if is_space d then String c EmptyString
          else String c (String d EmptyString)
      | r => String c r
      end
  end.

Definition parse_sign (s : string) : bool * string :=
  match s with
  | String "-" s' => (true, s')
  | String "+" s' => (false, s')
  | _ => (false, s)
  end.

(** [_Py_parse_inf_or_nan]: the value and the unread rest, if [s] starts
    with a spelling of an infinity or of a NaN. *)
Definition parse_inf_or_nan (s : string) : option (float * string) :=
  let '(neg, t) := parse_sign s in
  let l := string_map lower t in
  if String.prefix "inf" l then
    if String.prefix "inity" (String.substring 3 (String.length l - 3) l)
    then Some (S754_infinity neg, String.substring 8 (String.length t - 8) t)
    else Some (S754_infinity neg, String.substring 3 (String.length t - 3) t)
  else if String.prefix "nan" l
  then Some (S754_nan, String.substring 3 (String.length t - 3) t)
  else None.

Definition MAX_ABS_EXP : Z := 1100000000.

(** The exponent part of a decimal literal: the exponent and the unread
    rest. An [e] that no digit follows is not part of the literal. *)
Definition parse_exponent (s : string) : Z * string :=
  match s with
  | String c s1 =>
      if ((code c =? 101) || (code c =? 69))%N then
        let '(esign, s2) := parse_sign s1 in
        match span_digits s2 with
        | ([], _) => (0, s)
        | (ds, rest) =>
            let a := Z.of_N (digits_value ds) in
            let a' := if MAX_ABS_EXP <? a then MAX_ABS_EXP else a in
            (if esign then - a' else a', rest)
        end
      else (0, s)
  | EmptyString => (0, s)
  end.

(** [_Py_dg_strtod] followed by [_Py_parse_inf_or_nan] when no number was
    read: the value and the unread rest. *)
Definition strtod (s : string) : option (float * string) :=
  let '(neg, s1) := parse_sign s in
  let '(int_ds, s2) := span_digits s1 in
  let '(frac_ds, s3) :=
    match s2 with
    | String "." s' => span_digits s'
    | _ => ([], s2)
    end in
  match (int_ds ++ frac_ds)%list with
  | [] => parse_inf_or_nan s
  | ds =>
      let '(e, s4) := parse_exponent s3 in
      Some (float_of_decimal neg (digits_value ds)
              (e - Z.of_nat (List.length frac_ds)), s4)
  end.

Definition float_of_string (s : string) : result float :=
  match remove_underscores zero (string_map to_ascii_space s) with
  | None => Raise ValueError
  | Some s1 =>
      match rstrip (lstrip s1) with
      | EmptyString => Raise ValueError
      | s2 =>
          match strtod s2 with
          | Some (x, EmptyString) => OK x
          | _ => Raise ValueError
          end
      end
  end.

(** ** [repr(x)] and [str(x)] for a float

    [float_repr] is [PyOS_double_to_string(x, 'r', 0, Py_DTSF_ADD_DOT_0)]:
    the shortest string of decimal digits that [float] reads back as [x]
    (the nearest to [x] among the shortest), laid out in positional
    notation when the decimal point falls within [-4 < decpt <= 16] and in
    exponent notation otherwise. *)

Definition dec (n : N) : string := NilZero.string_of_uint (N.to_uint n).

Definition digits10 (n : Z) : Z :=
  Z.of_nat (String.length (dec (Z.to_N n))).

(** The value [m * 2^e] as a fraction of two positive integers. *)
Definition ratio (m : positive) (e : Z) : Z * Z :=
  if 0 <=? e then (Zpos m * 2 ^ e, 1) else (Zpos m, 2 ^ (- e)).

(** The [d] with [10^(d-1) <= num/den < 10^d]. *)
Definition mag10 (num den : Z) : Z :=
  if den <=? num then digits10 (num / den)
  else 1 - digits10 ((den + num - 1) / num - 1).

(** [num/den / 10^q] as a fraction. *)
Definition scaled (num den q : Z) : Z * Z :=
  if 0 <=? q then (num, den * 10 ^ q) else (num * 10 ^ (- q), den).

Definition reads_back (x : float) (D q : Z) : bool :=
  SFeqb (float_of_decimal false (Z.to_N D) q) x.

(** The [n]-digit decimals just below and just above [x = num/den] (of
    decimal magnitude [d]); the one that reads back as [x], the nearer one
    when both do, the even one on a tie. With [force], the nearer one
    whether it reads back or not. *)
Definition try_digits (force : bool) (x : float) (num den d n : Z)
  : option (Z * Z) :=
  let q := d - n in
  let '(a, b) := scaled num den q in
  let D := a / b in
  let r := a mod b in
  let nearest :=
    match 2 * r ?= b with
    | Lt => D
    | Gt => D + 1
    | Eq => if Z.even D then D else D + 1
    end in
  match reads_back x D q || force, reads_back x (D + 1) q || force with
  | true, true => Some (nearest, q)
  | true, false => Some (D, q)
  | false, true => Some (D + 1, q)
  | false, false => None
  end.

(** Tries 1, 2, ... digits; the last attempt (17 digits when started with
    [fuel = 17] at [n = 1]) is forced. *)
Fixpoint shortest (fuel : nat) (x : float) (num den d n : Z) : Z * Z :=
  match fuel with
  | O => (0, 0)
  | S O => default (0, 0) (try_digits true x num den d n)
  | S fuel' =>
      match try_digits false x num den d n with
      | Some r => r
      | None => shortest fuel' x num den d (n + 1)
      end
  end.

Fixpoint zeros (n : nat) : string :=
  match n with
  | O => EmptyString
  | S n' => String "0" (zeros n')
  end.

Fixpoint strip_trailing_zeros (s : string) : string :=
  match s with
  | EmptyString => EmptyString
  | String c s' =>
      match strip_trailing_zeros s' with
      | EmptyString => if (code c =? 48)%N then EmptyString else String c EmptyString
      | r => String c r
      end
  end.

(** The digit string and the position of the decimal point ([decpt]:
    the value is [0.d1d2... * 10^decpt]) of a positive finite float. *)
Definition dtoa (m : positive) (e : Z) : string * Z :=
  let '(num, den) := ratio m e in
  let d := mag10 num den in
  let '(D, q) := shortest 17 (S754_finite false m e) num den d 1 in
  let all := dec (Z.to_N D) in
  (strip_trailing_zeros all, Z.of_nat (String.length all) + q).

Definition pad2 (s : string) : string :=
  match s with
  | String c EmptyString => String "0" s
  | _ => s
  end.

Definition format_repr (ds : string) (decpt : Z) : string :=
  let nd := Z.of_nat (String.length ds) in
  if (decpt <=? -4) || (16 <? decpt) then
    let ex := decpt - 1 in
    let mant :=
      match ds with
      | String c EmptyString => ds
      | String c rest => String c ("." +:+ rest)
      | EmptyString => EmptyString
      end in
    mant +:+ "e" +:+ (if ex <? 0 then "-" else "+")
         +:+ pad2 (dec (Z.to_N (Z.abs ex)))
  else if decpt <=? 0 then
    "0." +:+ zeros (Z.to_nat (- decpt)) +:+ ds
  else if nd <=? decpt then
    ds +:+ zeros (Z.to_nat (decpt - nd)) +:+ ".0"
  else
    String.substring 0 (Z.to_nat decpt) ds +:+ "."
      +:+ String.substring (Z.to_nat decpt) (Z.to_nat (nd - decpt)) ds.

Definition float_repr (x : float) : string :=
  match x with
  | S754_nan => "nan"
  | S754_infinity s => if s then "-inf" else "inf"
  | S754_zero s => if s then "-0.0" else "0.0"
  | S754_finite s m e =>
      let '(ds, decpt) := dtoa m e in
      (if s then "-" else EmptyString) +:+ format_repr ds decpt
  end.

(** [str(x)] of a float is its [repr]. *)
Definition float_str (x : float) : string := float_repr x.

(** ** Python values

    The values a field of an input record may hold, and the objects the
    serializers build from them. *)

Inductive PyVal : Type :=
  | VNone
  | VBool (b : bool)
  | VInt (z : Z)
  | VFloat (x : float)
  | VStr (s : string).

#[warnings="-register-all"]
Inductive PyObj : Type :=
  | OVal (v : PyVal)
  | OList (l : list PyObj)
  | ODict (d : list (string * PyObj)).

(** A [dict] with string keys, in insertion order. *)
Definition dict : Type := list (string * PyObj).

(** [d[k] = v]: replaces the value of an existing key in place, appends a
    new key. *)
Fixpoint dict_set (d : dict) (k : string) (v : PyObj) : dict :=
  match d with
  | [] => [(k, v)]
  | (k', v') :: d' =>
      if String.eqb k' k then (k, v) :: d'
      else (k', v') :: dict_set d' k v
  end.

Definition dict_keys (d : dict) : list string := map fst d.

Fixpoint dict_get (d : dict) (k : string) : option PyObj :=
  match d with
  | [] => None
  | (k', v) :: d' => if String.eqb k' k then Some v else dict_get d' k
  end.

(** The truth value of an object in an [if]. *)
Definition truthy (v : PyVal) : bool :=
  match v with
  | VNone => false
  | VBool b => b
  | VInt z => negb (z =? 0)
  | VFloat x => float_truthy x
  | VStr s => negb (String.eqb s EmptyString)
  end.

(** [float(v)]. A [bool] is an [int]. *)
Definition py_float (v : PyVal) : result float :=
  match v with
  | VNone => Raise TypeError
  | VBool b => float_of_int (if b then 1 else 0)
  | VInt z => float_of_int z
  | VFloat x => OK x
  | VStr s => float_of_string s
  end.

(** [v == s] for a string [s]: only an equal string is equal to it. *)
Definition eq_str (v : PyVal) (s : string) : bool :=
  match v with
  | VStr t => String.eqb t s
  | _ => false
  end.

Definition as_str (v : PyVal) : result string :=
  match v with
  | VStr s => OK s
  | _ => Raise TypeError
  end.

(** [sep.join(items)]: [TypeError] when an item is not a string. *)
Fixpoint join (sep : string) (items : list PyVal) : result string :=
  match items with
  | [] => OK EmptyString
  | [v] => as_str v
  | v :: rest =>
      let* s := as_str v in
      let* r := join sep rest in
      OK (s +:+ sep +:+ r)
  end.

(** [k in info and info[k]], then [info[k]]: the value under [k] when it
    is there and true. *)
Definition get_truthy (info : gmap string PyVal) (k : string)
  : option PyVal :=
  match info !! k with
  | Some v => if truthy v then Some v else None
  | None => None
  end.

(** [x == y] on floats. *)
Definition float_eq (x y : float) : bool := SFeqb x y.

(** A field of an input record that is absent, or present with a false
    value (an empty string, [None], a zero, [False]). *)
Definition absent_or_falsy (info : gmap string PyVal) (k : string) : Prop :=
  info !! k = None \/ exists v, info !! k = Some v /\ truthy v = false.

(** A field that is present with a true value [v]. *)
Definition present (info : gmap string PyVal) (k : string) (v : PyVal)
  : Prop :=
  info !! k = Some v /\ truthy v = true.

(** The line feed. *)
Definition nl : string := String (ascii_of_N 10) EmptyString.

End Py.

(** * [models.py] *)

Module Models.
Import Py.

Section WithHelpers.

(** The two functions imported from [helpers]: the parser of a calendar
    date and the formatter of a time. They are parameters of the
    development; [datetime] is the type of the values the parser builds. *)
Variable datetime : Type.
Variable cd_to_datetime : PyVal -> result datetime.
Variable datetime_to_str : option datetime -> result string.

(** ** [NearEarthObject]

    [approaches] holds the identities of the linked close approaches. *)
Record NearEarthObject : Type := {
  designation : PyVal;
  name : PyVal;
  diameter : float;
  hazardous : bool;
  approaches : list nat
}.

Definition pdes_missing : string :=
  "The unique primary designation (pdes) for NEO is missing.".

(** [NearEarthObject.__init__(self, **info)] *)
Definition NearEarthObject_init (info : gmap string PyVal)
  : result NearEarthObject :=
  let* designation' :=
    match get_truthy info "pdes" with
    | Some v => OK v
    | None => Raise (KeyError pdes_missing)
    end in
  let name' :=
    match get_truthy info "name" with
    | Some v => v
    | None => VNone
    end in
  let* diameter' :=
    match get_truthy info "diameter" with
    | Some v => py_float v
    | None => py_float (VStr "nan")
    end in
  let hazardous' :=
    match get_truthy info "pha" with
    | Some v => if eq_str v "Y" then true else false
    | None => false
    end in
  OK {| designation := designation';
        name := name';
        diameter := diameter';
        hazardous := hazardous';
        approaches := [] |}.

(** [NearEarthObject.serialize(self)] *)
Definition NearEarthObject_serialize (self : NearEarthObject) : dict :=
  let serialized := [] in
  let serialized := dict_set serialized "designation" (OVal (designation self)) in
  let serialized :=
    if truthy (name self)
    then dict_set serialized "name" (OVal (name self))
    else dict_set serialized "name" (OVal (VStr EmptyString)) in
  let serialized := dict_set serialized "diameter_km" (OVal (VFloat (diameter self))) in
  let serialized :=
    dict_set serialized "potentially_hazardous" (OVal (VBool (hazardous self))) in
  serialized.

(** ** [CloseApproach] *)
Record CloseApproach : Type := {
  _designation : PyVal;
  time : option datetime;
  distance : float;
  velocity : float;
  neo : option NearEarthObject
}.

Definition des_missing : string :=
  "The unique designation for CA is missing.".

(** [CloseApproach.__init__(self, **info)] *)
Definition CloseApproach_init (info : gmap string PyVal)
  : result CloseApproach :=
  let* designation' :=
    match get_truthy info "des" with
    | Some v => OK v
    | None => Raise (KeyError des_missing)
    end in
  let* time' :=
    match get_truthy info "cd" with
    | Some v => let* t := cd_to_datetime v in OK (Some t)
    | None => OK None
    end in
  let* distance' :=
    match get_truthy info "dist" with
    | Some v => py_float v
    | None => OK (S754_zero false)
    end in
  let* velocity' :=
    match get_truthy info "v_rel" with
    | Some v => py_float v
    | None => OK (S754_zero false)
    end in
  OK {| _designation := designation';
        time := time';
        distance := distance';
        velocity := velocity';
        neo := None |}.

(** [CloseApproach.time_str] *)
Definition time_str (self : CloseApproach) : result string :=
  datetime_to_str (time self).

(** [CloseApproach.serialize(self)] *)
Definition CloseApproach_serialize (self : CloseApproach) : result dict :=
  let serialized := [] in
  let* t := time_str self in
  let serialized := dict_set serialized "datetime_utc" (OVal (VStr t)) in
  let serialized := dict_set serialized "distance_au" (OVal (VFloat (distance self))) in
  let serialized := dict_set serialized "velocity_km_s" (OVal (VFloat (velocity self))) in
  OK serialized.

(** [self.neo.attr]: [AttributeError] while [neo] is [None]. *)
Definition neo_of (self : CloseApproach) : result NearEarthObject :=
  match neo self with
  | Some n => OK n
  | None => Raise AttributeError
  end.

(** Field [k] does not stop the constructor: it is absent or falsy, or
    [float] accepts its value. *)
Definition converts (info : gmap string PyVal) (k : string) : Prop :=
  absent_or_falsy info k
  \/ exists v x, present info k v /\ py_float v = OK x.

(** The same for the date field and the date parser. *)
Definition cd_converts (info : gmap string PyVal) : Prop :=
  absent_or_falsy info "cd"
  \/ exists v t, present info "cd" v /\ cd_to_datetime v = OK t.

End WithHelpers.

Arguments _designation {datetime} _.
Arguments time {datetime} _.
Arguments distance {datetime} _.
Arguments velocity {datetime} _.
Arguments neo {datetime} _.
Arguments Build_CloseApproach {datetime} _ _ _ _ _.
Arguments CloseApproach_init {datetime} cd_to_datetime info.
Arguments time_str {datetime} datetime_to_str self.
Arguments CloseApproach_serialize {datetime} datetime_to_str self.
Arguments neo_of {datetime} self.
Arguments cd_converts {datetime} cd_to_datetime info.

End Models.

(** * [json.dump]

    The text [json.dump] writes with its default settings: [', '] and
    [': '] as separators, every character outside the printable ASCII range
    escaped, a NaN and the infinities as [NaN], [Infinity], [-Infinity]. *)

Module Json.
Import Py.

Definition hex_digit (n : N) : ascii :=
  if (n <? 10)%N then ascii_of_N (48 + n) else ascii_of_N (87 + n).

(** ['\\u{0:04x}'.format(n)] for a code point below 256. *)
Definition escape_u (n : N) : string :=
  "\u00" +:+ String (hex_digit (n / 16)) (String (hex_digit (n mod 16)) EmptyString).

(** The replacement of one character in [py_encode_basestring_ascii]. *)
Definition escape_char (c : ascii) : string :=
  let n := code c in
  if (n =? 92)%N then "\\"
  else if (n =? 34)%N then String "\" (String (ascii_of_N 34) EmptyString)
  else if (n =? 8)%N then "\b"
  else if (n =? 12)%N then "\f"
  else if (n =? 10)%N then "\n"
  else if (n =? 13)%N then "\r"
  else if (n =? 9)%N then "\t"
  else if ((32 <=? n) && (n <=? 126))%N then String c EmptyString
  else escape_u n.

Fixpoint escape (s : string) : string :=
  match s with
  | EmptyString => EmptyString
  | String c s' => escape_char c +:+ escape s'
  end.

Definition quote : string := String (ascii_of_N 34) EmptyString.

Definition encode_str (s : string) : string := quote +:+ escape s +:+ quote.

(** [int.__repr__] *)
Definition int_repr (z : Z) : string :=
  if z <? 0 then "-" +:+ dec (Z.to_N (- z)) else dec (Z.to_N z).

(** [floatstr] of the encoder. *)
Definition encode_float (x : float) : string :=
  match x with
  | S754_nan => "NaN"
  | S754_infinity false => "Infinity"
  | S754_infinity true => "-Infinity"
  | _ => float_repr x
  end.

Definition encode_val (v : PyVal) : string :=
  match v with
  | VNone => "null"
  | VBool true => "true"
  | VBool false => "false"
  | VInt z => int_repr z
  | VFloat x => encode_float x
  | VStr s => encode_str s
  end.

(** The chunks joined by [sep]. *)
Fixpoint sep_concat (sep : string) (l : list string) : string :=
  match l with
  | [] => EmptyString
  | [x] => x
  | x :: rest => x +:+ sep +:+ sep_concat sep rest
  end.

Fixpoint encode (o : PyObj) : string :=
  match o with
  | OVal v => encode_val v
  | OList l => "[" +:+ sep_concat ", " (map encode l) +:+ "]"
  | ODict d =>
      "{" +:+ sep_concat ", "
                (map (fun kv => encode_str (fst kv) +:+ ": " +:+ encode (snd kv)) d)
          +:+ "}"
  end.

End Json.

(** * [write.py] *)

Module Write.
Import Py Models.

(** The file system: the text of every file, by path. Text is kept as
    written, before any translation of line ends. *)
Abbreviation FS := (gmap string string).

(** A computation on the file system that may raise. The file system it
    returns is the one left behind, also when it raises. *)
Definition IO (A : Type) : Type := FS -> FS * result A.

Definition ret {A} (a : A) : IO A := fun fs => (fs, OK a).

Definition lift {A} (r : result A) : IO A := fun fs => (fs, r).

Definition bindIO {A B} (c : IO A) (k : A -> IO B) : IO B :=
  fun fs =>
    match c fs with
    | (fs', OK a) => k a fs'
    | (fs', Raise e) => (fs', Raise e)
    end.

Notation "'let!' x ':=' c 'in' k" := (bindIO c (fun x => k))
  (at level 10, x name, c at level 100, k at level 200).

(** The lines of a file, one after the other. *)
Definition concat_lines (lines : list string) : string :=
  fold_right String.append EmptyString lines.

(** The header line of the CSV file, without its line end. *)
Definition header_line : string :=
  "datetime_utc,distance_au,velocity_km_s,designation,name,diameter_km,potentially_hazardous".

Section WithHelpers.

Variable datetime : Type.
Variable datetime_to_str : option datetime -> result string.

(** Which paths can be opened for writing. *)
Variable writable : string -> bool.

(** [open(filename, 'w')]: creates the file or truncates it. *)
Definition open_w (filename : string) : IO unit :=
  fun fs =>
    if writable filename then (<[filename := EmptyString]> fs, OK tt)
    else (fs, Raise OSError).

(** [f.write(s)] *)
Definition write (f : string) (s : string) : IO unit :=
  fun fs => (<[f := default EmptyString (fs !! f) +:+ s]> fs, OK tt).

(** [f.writelines(lines)] for a string [lines]: one [write] per
    character. *)
Fixpoint writelines (f : string) (lines : string) : IO unit :=
  match lines with
  | EmptyString => ret tt
  | String c rest =>
      let! _ := write f (String c EmptyString) in writelines f rest
  end.

Definition field_names : list string :=
  ["datetime_utc"; "distance_au"; "velocity_km_s";
   "designation"; "name"; "diameter_km";
   "potentially_hazardous"].

(** The tuple [result_str] of one iteration of the loop of
    [write_to_csv]. *)
Definition result_str (result : CloseApproach datetime)
  : Py.result (list PyVal) :=
  let distance' :=
    if float_truthy (distance result) then float_str (distance result)
    else EmptyString in
  let velocity' :=
    if float_truthy (velocity result) then float_str (velocity result)
    else EmptyString in
  let* n := neo_of result in
  let name' := if truthy (name n) then name n else VStr EmptyString in
  let diameter' :=
    if float_truthy (diameter n) then float_str (diameter n) else EmptyString in
  let hazardous' := if hazardous n then "True" else "False" in
  let* t := time_str datetime_to_str result in
  OK [VStr t; VStr distance'; VStr velocity'; _designation result;
      name'; VStr diameter'; VStr hazardous'].

(** The line written for one record: [','.join(result_str) + '\n']. *)
Definition csv_line (result : CloseApproach datetime) : Py.result string :=
  let* fields := result_str result in
  let* row := join "," fields in
  OK (row +:+ nl).

(** The loop [for result in results] of [write_to_csv]. *)
Fixpoint write_rows (f : string) (results : list (CloseApproach datetime))
  : IO unit :=
  match results with
  | [] => ret tt
  | result :: rest =>
      let! line := lift (csv_line result) in
      let! _ := writelines f line in
      write_rows f rest
  end.

(** [write_to_csv(results, filename)] *)
Definition write_to_csv (results : list (CloseApproach datetime))
    (filename : string) : IO unit :=
  let! _ := open_w filename in
  let! header := lift (join "," (map VStr field_names)) in
  let! _ := writelines filename (header +:+ nl) in
  write_rows filename results.

(** One iteration of the loop of [write_to_json]: the element appended to
    [results_json]. *)
Definition json_element (result : CloseApproach datetime)
  : Py.result dict :=
  let* n := neo_of result in
  let neo_serialized := NearEarthObject_serialize n in
  let* result_serialized := CloseApproach_serialize datetime_to_str result in
  OK (dict_set result_serialized "neo" (ODict neo_serialized)).

(** The loop [for result in results] of [write_to_json], started with the
    list [results_json] built so far. *)
Fixpoint build_json (results_json : list dict)
    (results : list (CloseApproach datetime)) : Py.result (list dict) :=
  match results with
  | [] => OK results_json
  | result :: rest =>
      let* e := json_element result in
      build_json (results_json ++ [e])%list rest
  end.

(** [json.dump(obj, f)]: the chunks of the encoding, written in turn. *)
Definition json_dump (obj : PyObj) (f : string) : IO unit :=
  write f (Json.encode obj).

(** [write_to_json(results, filename)] *)
Definition write_to_json (results : list (CloseApproach datetime))
    (filename : string) : IO unit :=
  let! results_json := lift (build_json [] results) in
  let! _ := open_w filename in
  json_dump (OList (map ODict results_json)) filename.

(** A record every field of which [write_to_csv] can put in a row: it is
    linked to its NEO, its time formats, its designation is a string and
    the name of its NEO is a string or is falsy. *)
Definition renderable (r : CloseApproach datetime) : Prop :=
  (exists n, neo r = Some n
     /\ (truthy (name n) = false \/ exists s, name n = VStr s))
  /\ (exists t, time_str datetime_to_str r = OK t)
  /\ (exists d, _designation r = VStr d).

(** The relation between a record and the line written for it. *)
Definition row_of (r : CloseApproach datetime) (line : string) : Prop :=
  exists fields row,
    result_str r = OK fields /\ join "," fields = OK row
    /\ line = row +:+ nl.

(** A record that [write_to_json] can serialize: it is linked to its NEO
    and its time formats. *)
Definition serializable (r : CloseApproach datetime) : Prop :=
  (exists n, neo r = Some n)
  /\ (exists t, time_str datetime_to_str r = OK t).

(** The relation between a record and its element of the JSON array: the
    serialization of the approach, with the serialization of its NEO added
    under [neo]. *)
Definition element_of (r : CloseApproach datetime) (e : dict) : Prop :=
  exists n t ca_serialized,
    neo r = Some n
    /\ time_str datetime_to_str r = OK t
    /\ CloseApproach_serialize datetime_to_str r = OK ca_serialized
    /\ ca_serialized =
       [("datetime_utc", OVal (VStr t));
        ("distance_au", OVal (VFloat (distance r)));
        ("velocity_km_s", OVal (VFloat (velocity r)))]
    /\ dict_keys (NearEarthObject_serialize n) =
       ["designation"; "name"; "diameter_km"; "potentially_hazardous"]
    /\ e = (ca_serialized
            ++ [("neo", ODict (NearEarthObject_serialize n))])%list.

End WithHelpers.

End Write.

(** * An instance of the helpers *)

Module Helpers.
Import Py.

(** Modelled from the spec: [helpers.py] ([cd_to_datetime],
    [datetime_to_str]) is not among the sources. The parser turns a
    compact date-time string such as [2025-Jan-01 06:00] into a structured
    timestamp; the formatter prints date, hour and minute, without seconds,
    and prints a missing time as a fixed sentinel string. *)
Record datetime : Type := {
  year : N;
  month : N;
  day : N;
  hour : N;
  minute : N
}.

Definition month_names : list string :=
  ["Jan"; "Feb"; "Mar"; "Apr"; "May"; "Jun";
   "Jul"; "Aug"; "Sep"; "Oct"; "Nov"; "Dec"].

Fixpoint index_of (x : string) (l : list string) (i : N) : option N :=
  match l with
  | [] => None
  | y :: l' => if String.eqb x y then Some i else index_of x l' (i + 1)%N
  end.

(** The number written by [s] when [s] is exactly [n] decimal digits. *)
Definition number (n : nat) (s : string) : option N :=
  match span_digits s with
  | (ds, EmptyString) =>
      if Nat.eqb (List.length ds) n then Some (digits_value ds) else None
  | _ => None
  end.

Definition parse_cd (s : string) : option datetime :=
  if negb (Nat.eqb (String.length s) 17) then None else
  if negb (String.eqb (String.substring 4 1 s) "-"
           && String.eqb (String.substring 8 1 s) "-"
           && String.eqb (String.substring 11 1 s) " "
           && String.eqb (String.substring 14 1 s) ":") then None else
  match number 4 (String.substring 0 4 s),
        index_of (String.substring 5 3 s) month_names 1,
        number 2 (String.substring 9 2 s),
        number 2 (String.substring 12 2 s),
        number 2 (String.substring 15 2 s) with
  | Some y, Some mo, Some d, Some h, Some mi =>
      if ((1 <=? d) && (d <=? 31) && (h <? 24) && (mi <? 60))%N
      then Some {| year := y; month := mo; day := d; hour := h; minute := mi |}
      else None
  | _, _, _, _, _ => None
  end.

(** Modelled from the spec: the parser of [helpers.py], on the layout
    [YYYY-Mon-DD hh:mm]. *)
Definition cd_to_datetime (v : PyVal) : result datetime :=
  match v with
  | VStr s =>
      match parse_cd s with
      | Some t => OK t
      | None => Raise ValueError
      end
  | _ => Raise TypeError
  end.

(** [n] in decimal, padded with zeros on the left to [w] characters. *)
Definition padded (w : nat) (n : N) : string :=
  let s := dec n in
  zeros (w - String.length s) +:+ s.

Definition unknown_time : string := "an unknown time".

(** Modelled from the spec: the formatter of [helpers.py], to the layout
    [YYYY-MM-DD hh:mm]; a missing time gives the sentinel. *)
Definition datetime_to_str (t : option datetime) : result string :=
  match t with
  | None => OK unknown_time
  | Some d =>
      OK (padded 4 (year d) +:+ "-" +:+ padded 2 (month d) +:+ "-"
          +:+ padded 2 (day d) +:+ " " +:+ padded 2 (hour d) +:+ ":"
          +:+ padded 2 (minute d))
  end.

End Helpers.

(** * [fullname], [__str__] and [__repr__]

    The renderings of [models.py] and the formatting they use: [str(v)]
    and [repr(v)] of a value, and the format [.nf] of a float. *)

Module Render.
Import Py Models.

(** ** Formatting *)

(** [str(v)], which is also what a replacement field without a format
    gives. *)
Definition py_str (v : PyVal) : string :=
  match v with
  | VNone => "None"
  | VBool b => if b then "True" else "False"
  | VInt z => Json.int_repr z
  | VFloat x => float_repr x
  | VStr s => s
  end.

Definition hex2 (n : N) : string :=
  String (Json.hex_digit (n / 16)) (String (Json.hex_digit (n mod 16)) EmptyString).

(** [str.isprintable] on one character below 256. *)
Definition is_printable (c : ascii) : bool :=
  let n := code c in
  (((32 <=? n) && (n <=? 126)) || ((161 <=? n) && negb (n =? 173)))%N.

Fixpoint count_char (c : ascii) (s : string) : nat :=
  match s with
  | EmptyString => O
  | String d s' => (if Ascii.eqb c d then 1 else 0) + count_char c s'
  end.

Definition squote : ascii := ascii_of_N 39.
Definition dquote : ascii := ascii_of_N 34.
Definition backslash : ascii := ascii_of_N 92.

(** The quote [repr] puts around a string: the double quote when the
    string has single quotes and no double quote, the single quote
    otherwise. *)
Definition repr_quote (s : string) : ascii :=
  if negb (Nat.eqb (count_char squote s) 0) && Nat.eqb (count_char dquote s) 0
  then dquote else squote.

Definition repr_char (quote c : ascii) : string :=
  let n := code c in
  if Ascii.eqb c quote || Ascii.eqb c backslash
  then String backslash (String c EmptyString)
  else if (n =? 9)%N then "\t"
  else if (n =? 10)%N then "\n"
  else if (n =? 13)%N then "\r"
  else if is_printable c then String c EmptyString
  else "\x" +:+ hex2 n.

Fixpoint repr_chars (quote : ascii) (s : string) : string :=
  match s with
  | EmptyString => EmptyString
  | String c s' => repr_char quote c +:+ repr_chars quote s'
  end.

(** [repr(s)] for a string. *)
Definition str_repr (s : string) : string :=
  let q := repr_quote s in
  String q (repr_chars q s +:+ String q EmptyString).

(** [repr(v)], which is what the conversion [!r] gives. *)
Definition py_repr (v : PyVal) : string :=
  match v with
  | VStr s => str_repr s
  | _ => py_str v
  end.

(** [s] padded with zeros on the left to [w] characters. *)
Definition lpad0 (w : nat) (s : string) : string :=
  zeros (w - String.length s) +:+ s.

(** The digits of [n / 10^p] with [p] decimals. *)
Definition fixed_digits (p : nat) (n : N) : string :=
  let scale := (10 ^ N.of_nat p)%N in
  if Nat.eqb p 0 then dec n
  else dec (n / scale) +:+ "." +:+ lpad0 p (dec (n mod scale)).

(** [format(x, '.pf')]: the decimal with [p] digits after the point that
    is nearest to [x] (ties to even), never in exponent notation. *)
Definition format_f (p : nat) (x : float) : string :=
  match x with
  | S754_nan => "nan"
  | S754_infinity s => if s then "-inf" else "inf"
  | S754_zero s => (if s then "-" else EmptyString) +:+ fixed_digits p 0
  | S754_finite s m e =>
      let '(num, den) := ratio m e in
      let a := num * 10 ^ Z.of_nat p in
      let q := a / den in
      let r := a mod den in
      let n :=
        match 2 * r ?= den with
        | Lt => q
        | Gt => q + 1
        | Eq => if Z.even q then q else q + 1
        end in
      (if s then "-" else EmptyString) +:+ fixed_digits p (Z.to_N n)
  end.

(** ** [NearEarthObject] *)

(** [NearEarthObject.fullname] *)
Definition fullname (self : NearEarthObject) : string :=
  if truthy (name self)
  then py_str (designation self) +:+ " (" +:+ py_str (name self) +:+ ")"
  else py_str (designation self).

(** [NearEarthObject.__str__(self)] *)
Definition NearEarthObject_str (self : NearEarthObject) : string :=
  let hazardous_string := if hazardous self then "is" else "is not" in
  ("NEO " +:+ fullname self +:+ " ")
  +:+ ("has a diameter of " +:+ format_f 3 (diameter self) +:+ " km ")
  +:+ ("and " +:+ hazardous_string +:+ " potentially hazardous.").

(** [NearEarthObject.__repr__(self)] *)
Definition NearEarthObject_repr (self : NearEarthObject) : string :=
  ("NearEarthObject(designation=" +:+ py_repr (designation self)
   +:+ ", name=" +:+ py_repr (name self) +:+ ", ")
  +:+ ("diameter=" +:+ format_f 3 (diameter self)
       +:+ ", hazardous=" +:+ py_repr (VBool (hazardous self)) +:+ ")").

(** ** [CloseApproach] *)

Section WithHelpers.

Variable datetime : Type.
Variable datetime_to_str : option datetime -> result string.

(** [CloseApproach.__str__(self)] *)
Definition CloseApproach_str (self : CloseApproach datetime)
  : result string :=
  let* t := time_str datetime_to_str self in
  let* n := neo_of self in
  OK (("At " +:+ t +:+ ", ")
      +:+ ("'" +:+ fullname n +:+ "' approaches Earth ")
      +:+ ("at a distance of " +:+ format_f 2 (distance self) +:+ " au ")
      +:+ ("and a velocity of " +:+ format_f 2 (velocity self) +:+ " km/s.")).

(** [CloseApproach.__repr__(self)] *)
Definition CloseApproach_repr (self : CloseApproach datetime)
  : result string :=
  let* t := time_str datetime_to_str self in
  let neo_repr :=
    match neo self with
    | Some n => NearEarthObject_repr n
    | None => py_repr VNone
    end in
  OK (("CloseApproach(time=" +:+ str_repr t
       +:+ ", distance=" +:+ format_f 2 (distance self) +:+ ", ")
      +:+ ("velocity=" +:+ format_f 2 (velocity self)
           +:+ ", neo=" +:+ neo_repr +:+ ")")).

End WithHelpers.

Arguments CloseApproach_str {datetime} datetime_to_str self.
Arguments CloseApproach_repr {datetime} datetime_to_str self.

End Render.

(** * What the writers leave behind: auxiliary notions *)

Module WriteMore.
Import Py Models Write Render.

(** A printable ASCII character, and a text made of such characters. *)
Definition ascii_printable (c : ascii) : bool :=
  ((32 <=? code c) && (code c <=? 126))%N.

Fixpoint all_printable (s : string) : bool :=
  match s with
  | EmptyString => true
  | String c s' => ascii_printable c && all_printable s'
  end.

Definition comma : ascii := ascii_of_N 44.

(** The commas inside a field of a row. *)
Definition commas_in (v : PyVal) : nat :=
  match v with
  | VStr s => count_char comma s
  | _ => O
  end.

Section WithHelpers.

Variable datetime : Type.
Variable datetime_to_str : option datetime -> result string.

(** The approach [c] once its [neo] attribute has been assigned [n]. *)
Definition with_neo (c : CloseApproach datetime) (n : NearEarthObject)
  : CloseApproach datetime :=
  {| _designation := _designation c;
     time := time c;
     distance := distance c;
     velocity := velocity c;
     neo := Some n |}.

(** The lines of the records that come before the first record that does
    not render. *)
Fixpoint rendered_lines (results : list (CloseApproach datetime))
  : list string :=
  match results with
  | [] => []
  | r :: rest =>
      match csv_line datetime datetime_to_str r with
      | OK line => line :: rendered_lines rest
      | Raise _ => []
      end
  end.

(** What the first record that does not render raises, if there is one. *)
Fixpoint first_error (results : list (CloseApproach datetime))
  : result unit :=
  match results with
  | [] => OK tt
  | r :: rest =>
      match csv_line datetime datetime_to_str r with
      | OK _ => first_error rest
      | Raise e => Raise e
      end
  end.

End WithHelpers.

Arguments with_neo {datetime} c n.

End WriteMore.

(** * The records of the examples *)

Module Scenario.
Import Py Models.

(** The NEO and the approach of the end-to-end scenario. *)
Definition eros_info : gmap string PyVal :=
  {[ "pdes" := VStr "433"; "name" := VStr "Eros";
     "diameter" := VStr "16.84"; "pha" := VStr "N" ]}.

Definition eros : NearEarthObject :=
  {| designation := VStr "433";
     name := VStr "Eros";
     diameter := S754_finite false 4740038607807447 (-48);
     hazardous := false;
     approaches := [] |}.

Definition approach_info : gmap string PyVal :=
  {[ "des" := VStr "433"; "cd" := VStr "2025-Jan-01 06:00";
     "dist" := VStr "0.15"; "v_rel" := VStr "5.02" ]}.

Definition new_year : Helpers.datetime :=
  {| Helpers.year := 2025; Helpers.month := 1; Helpers.day := 1;
     Helpers.hour := 6; Helpers.minute := 0 |}.

(** The approach as constructed, and once linked to its NEO. *)
Definition unlinked : CloseApproach Helpers.datetime :=
  {| _designation := VStr "433";
     time := Some new_year;
     distance := S754_finite false 5404319552844595 (-55);
     velocity := S754_finite false 5652017532349972 (-50);
     neo := None |}.

Definition approach : CloseApproach Helpers.datetime :=
  {| _designation := VStr "433";
     time := Some new_year;
     distance := S754_finite false 5404319552844595 (-55);
     velocity := S754_finite false 5652017532349972 (-50);
     neo := Some eros |}.

(** A hazardous NEO without name or diameter, and an approach without
    date, distance or velocity. *)
Definition nameless_info : gmap string PyVal :=
  {[ "pdes" := VStr "2020 AB"; "name" := VStr EmptyString;
     "pha" := VStr "Y" ]}.

Definition nameless : NearEarthObject :=
  {| designation := VStr "2020 AB";
     name := VNone;
     diameter := S754_nan;
     hazardous := true;
     approaches := [] |}.

Definition unmeasured_info : gmap string PyVal :=
  {[ "des" := VStr "2020 AB"; "dist" := VStr EmptyString ]}.

Definition unmeasured : CloseApproach Helpers.datetime :=
  {| _designation := VStr "2020 AB";
     time := None;
     distance := S754_zero false;
     velocity := S754_zero false;
     neo := Some nameless |}.

(** An approach at the distance [0.3312], with no velocity. *)
Definition near : CloseApproach Helpers.datetime :=
  {| _designation := VStr "433";
     time := Some new_year;
     distance := S754_finite false 5966368786340433 (-54);
     velocity := S754_zero false;
     neo := Some eros |}.

Definition unmeasured_unlinked : CloseApproach Helpers.datetime :=
  {| _designation := VStr "2020 AB";
     time := None;
     distance := S754_zero false;
     velocity := S754_zero false;
     neo := None |}.

(** A NEO whose diameter is the string [0]. *)
Definition zero_diameter_info : gmap string PyVal :=
  {[ "pdes" := VStr "433"; "diameter" := VStr "0" ]}.

Definition zero_diameter : NearEarthObject :=
  {| designation := VStr "433";
     name := VNone;
     diameter := S754_zero false;
     hazardous := false;
     approaches := [] |}.

(** Records with a field that is not a number. *)
Definition bad_diameter_info : gmap string PyVal :=
  {[ "pdes" := VStr "433"; "diameter" := VStr "abc" ]}.

Definition bad_dist_info : gmap string PyVal :=
  {[ "des" := VStr "433"; "dist" := VStr "abc" ]}.

Definition bad_v_rel_info : gmap string PyVal :=
  {[ "des" := VStr "433"; "v_rel" := VStr "abc" ]}.

(** A record with a diameter that is not a number and no designation. *)
Definition no_pdes_info : gmap string PyVal :=
  {[ "diameter" := VStr "abc" ]}.

Definition no_des_info : gmap string PyVal :=
  {[ "dist" := VStr "0.15" ]}.

(** Every path can be opened. *)
Definition any_path (p : string) : bool := true.

(** A file system with an older output file. *)
Definition old_fs : gmap string string := {[ "out.json" := "old" ]}.

End Scenario.

(** * More records for the examples *)

Module MoreScenario.
Import Py Models Scenario WriteMore.

(** The record of Eros with a key the constructor does not read. *)
Definition eros_info_with_orbit : gmap string PyVal :=
  <["orbit_id" := VStr "JPL 658"]> eros_info.

(** A NEO whose name holds a comma, and an approach linked to it. *)
Definition halley : NearEarthObject :=
  {| designation := VStr "1P";
     name := VStr "Halley, Edmond";
     diameter := S754_finite false 6192449487634432 (-49);
     hazardous := false;
     approaches := [] |}.

Definition halley_approach : CloseApproach Helpers.datetime :=
  {| _designation := VStr "1P";
     time := Some new_year;
     distance := S754_finite false 5404319552844595 (-55);
     velocity := S754_finite false 5652017532349972 (-50);
     neo := Some halley |}.

Definition halley_fields : list PyVal :=
  [VStr "2025-01-01 06:00"; VStr "0.15"; VStr "5.02"; VStr "1P";
   VStr "Halley, Edmond"; VStr "11.0"; VStr "False"].

Definition halley_row : string :=
  "2025-01-01 06:00,0.15,5.02,1P,Halley, Edmond,11.0,False".

(** An approach whose distance is given as the string [0.0]. *)
Definition zero_dist_info : gmap string PyVal :=
  {[ "des" := VStr "433"; "dist" := VStr "0.0"; "v_rel" := VStr "5.02" ]}.

Definition zero_dist : CloseApproach Helpers.datetime :=
  {| _designation := VStr "433";
     time := None;
     distance := S754_zero false;
     velocity := S754_finite false 5652017532349972 (-50);
     neo := None |}.

Definition zero_dist_fields : list PyVal :=
  [VStr "an unknown time"; VStr EmptyString; VStr "5.02"; VStr "433";
   VStr "Eros"; VStr "16.84"; VStr "False"].

(** No path can be opened. *)
Definition no_path (p : string) : bool := false.

(** A file system with an older CSV file and another file. *)
Definition busy_fs : gmap string string :=
  {[ "out.csv" := "stale"; "notes.txt" := "keep" ]}.

End MoreScenario.

(** * Facts about the Python layer *)

Module PyFacts.
Import Py.

Lemma get_truthy_present info k v :
  present info k v -> get_truthy info k = Some v.
Proof.
  intros [Hk Hv]. unfold get_truthy. rewrite Hk, Hv. reflexivity.
Qed.

Lemma get_truthy_absent info k :
  absent_or_falsy info k -> get_truthy info k = None.
Proof.
  unfold get_truthy. intros [Hk | (v & Hk & Hv)]; rewrite Hk.
  - reflexivity.
  - rewrite Hv. reflexivity.
Qed.

Lemma get_truthy_Some info k v :
  get_truthy info k = Some v -> present info k v.
Proof.
  unfold get_truthy, present.
  destruct (info !! k) as [w|]; [|discriminate].
  destruct (truthy w) eqn:Hw; [|discriminate].
  intros [= <-]. split; [reflexivity | assumption].
Qed.

Lemma get_truthy_None info k :
  get_truthy info k = None -> absent_or_falsy info k.
Proof.
  unfold get_truthy, absent_or_falsy.
  destruct (info !! k) as [w|]; [|left; reflexivity].
  destruct (truthy w) eqn:Hw; [discriminate|].
  intros _. right. exists w. split; [reflexivity | assumption].
Qed.

(** Every field is one or the other. *)
Lemma present_or_absent info k :
  (exists v, present info k v) \/ absent_or_falsy info k.
Proof.
  destruct (get_truthy info k) as [v|] eqn:H.
  - left. exists v. apply get_truthy_Some. assumption.
  - right. apply get_truthy_None. assumption.
Qed.

Lemma present_not_absent info k v :
  present info k v -> absent_or_falsy info k -> False.
Proof.
  intros Hp Ha. apply get_truthy_present in Hp.
  apply get_truthy_absent in Ha. congruence.
Qed.

(** A float is false exactly when it equals [0.0]. *)
Lemma float_truthy_eq x : float_truthy x = negb (float_eq x fzero).
Proof. destruct x as [s|s| |s m e]; try destruct s; reflexivity. Qed.

(** The text of some floats, as Python prints them. *)
Example repr_halfway : float_repr (S754_finite false 4503599627370496 (-53)) = "0.5".
Proof. vm_compute. reflexivity. Qed.

Example repr_1e23 : float_repr (S754_finite false 5960464477539062 24) = "1e+23".
Proof. vm_compute. reflexivity. Qed.

Example repr_1e16 : float_repr (S754_finite false 5000000000000000 1) = "1e+16".
Proof. vm_compute. reflexivity. Qed.

Example repr_1e15 :
  float_repr (S754_finite false 8000000000000000 (-3)) = "1000000000000000.0".
Proof. vm_compute. reflexivity. Qed.

Example repr_smallest : float_repr (S754_finite false 1 (-1074)) = "5e-324".
Proof. vm_compute. reflexivity. Qed.

Example repr_tenth :
  float_repr (S754_finite true 7205759403792794 (-56)) = "-0.1".
Proof. vm_compute. reflexivity. Qed.

(** Some strings, as [float] reads them. *)
Example float_of_padded :
  float_of_string " 1_0.5e-3 " = OK (S754_finite false 6052837899185947 (-59)).
Proof. vm_compute. reflexivity. Qed.

Example float_of_huge : float_of_string "1e400" = OK (S754_infinity false).
Proof. vm_compute. reflexivity. Qed.

Example float_of_Infinity : float_of_string "-Infinity" = OK (S754_infinity true).
Proof. vm_compute. reflexivity. Qed.

Example float_of_dangling_exponent : float_of_string "1e" = Raise ValueError.
Proof. vm_compute. reflexivity. Qed.

Example float_of_trailing_underscore : float_of_string "1_" = Raise ValueError.
Proof. vm_compute. reflexivity. Qed.

Example float_of_empty : float_of_string EmptyString = Raise ValueError.
Proof. vm_compute. reflexivity. Qed.

Lemma float_of_string_nan : float_of_string "nan" = OK S754_nan.
Proof. reflexivity. Qed.

Lemma float_of_string_0 : float_of_string "0" = OK (S754_zero false).
Proof. reflexivity. Qed.

Lemma append_nonempty_r s t : t <> EmptyString -> s +:+ t <> EmptyString.
Proof. destruct s; simpl; [tauto | discriminate]. Qed.

Lemma append_nonempty_l s t : s <> EmptyString -> s +:+ t <> EmptyString.
Proof. destruct s; simpl; [tauto | discriminate]. Qed.

Lemma format_repr_nonempty ds decpt : format_repr ds decpt <> EmptyString.
Proof.
  unfold format_repr.
  destruct ((decpt <=? -4) || (16 <? decpt)).
  - apply append_nonempty_r. discriminate.
  - destruct (decpt <=? 0); [discriminate|].
    destruct (_ <=? decpt).
    + do 2 apply append_nonempty_r. discriminate.
    + apply append_nonempty_r. discriminate.
Qed.

(** The text of a float is never empty. *)
Lemma float_str_nonempty x : float_str x <> EmptyString.
Proof.
  unfold float_str, float_repr.
  destruct x as [s|s| |s m e]; try destruct s; try discriminate;
    destruct (dtoa m e) as [ds decpt];
    apply append_nonempty_r, format_repr_nonempty.
Qed.

Lemma float_str_nan : float_str S754_nan = "nan".
Proof. reflexivity. Qed.

Lemma py_float_no_KeyError v msg : py_float v <> Raise (KeyError msg).
Proof.
  destruct v as [|b|z|x|s]; simpl; try discriminate.
  - unfold float_of_int. destruct b; simpl; discriminate.
  - unfold float_of_int.
    destruct (binary_normalize prec emax z 0 false); discriminate.
  - unfold float_of_string.
    destruct (remove_underscores _ _); [|discriminate].
    destruct (rstrip _); [discriminate|].
    destruct (strtod _) as [[x [|c r]]|]; discriminate.
Qed.

End PyFacts.

(** * The constructors and [serialize] *)

Module ModelsFacts.
Import Py Models PyFacts.

Section WithHelpers.

Variable datetime : Type.
Variable cd_to_datetime : PyVal -> result datetime.

Implicit Type info : gmap string PyVal.

Local Abbreviation cd_converts := (cd_converts cd_to_datetime).

(** ** Step lemmas: how each constructor goes through its fields *)

Lemma neo_init_no_pdes info :
  absent_or_falsy info "pdes" ->
  NearEarthObject_init info = Raise (KeyError pdes_missing).
Proof.
  intros H. unfold NearEarthObject_init.
  rewrite (get_truthy_absent _ _ H). reflexivity.
Qed.

(** With a designation, the constructor is decided by the conversion of
    the diameter alone. *)
Lemma neo_init_pdes info p :
  present info "pdes" p ->
  NearEarthObject_init info =
    let* d :=
      match get_truthy info "diameter" with
      | Some v => py_float v
      | None => OK S754_nan
      end in
    OK {| designation := p;
          name := default VNone (get_truthy info "name");
          diameter := d;
          hazardous :=
            match get_truthy info "pha" with
            | Some v => eq_str v "Y"
            | None => false
            end;
          approaches := [] |}.
Proof.
  intros H. unfold NearEarthObject_init.
  rewrite (get_truthy_present _ _ _ H). cbn [bind].
  destruct (get_truthy info "diameter") as [v|];
    [destruct (py_float v) | rewrite float_of_string_nan || cbn [py_float]];
    cbn [bind];
    try (destruct (get_truthy info "name"), (get_truthy info "pha") as [w|];
         try destruct (eq_str w "Y"); reflexivity).
Qed.

Lemma neo_init_OK info n :
  NearEarthObject_init info = OK n ->
  exists p, present info "pdes" p /\ designation n = p
    /\ name n = default VNone (get_truthy info "name")
    /\ match get_truthy info "diameter" with
       | Some v => py_float v = OK (diameter n)
       | None => diameter n = S754_nan
       end
    /\ hazardous n = match get_truthy info "pha" with
                     | Some v => eq_str v "Y"
                     | None => false
                     end.
Proof.
  intros H.
  destruct (present_or_absent info "pdes") as [[p Hp] | Ha].
  - exists p. split; [assumption|].
    rewrite (neo_init_pdes _ _ Hp) in H.
    destruct (get_truthy info "diameter") as [v|].
    + destruct (py_float v) as [d|e]; [|discriminate].
      cbn in H. injection H as <-. cbn. auto.
    + cbn in H. injection H as <-. cbn. auto.
  - rewrite (neo_init_no_pdes _ Ha) in H. discriminate.
Qed.

Lemma ca_init_no_des info :
  absent_or_falsy info "des" ->
  CloseApproach_init cd_to_datetime info = Raise (KeyError des_missing).
Proof.
  intros H. unfold CloseApproach_init.
  rewrite (get_truthy_absent _ _ H). reflexivity.
Qed.

Lemma ca_init_des info p :
  present info "des" p ->
  CloseApproach_init cd_to_datetime info =
    let* t :=
      match get_truthy info "cd" with
      | Some v => let* t := cd_to_datetime v in OK (Some t)
      | None => OK None
      end in
    let* d :=
      match get_truthy info "dist" with
      | Some v => py_float v
      | None => OK (S754_zero false)
      end in
    let* w :=
      match get_truthy info "v_rel" with
      | Some v => py_float v
      | None => OK (S754_zero false)
      end in
    OK {| _designation := p; time := t; distance := d; velocity := w;
          neo := None |}.
Proof.
  intros H. unfold CloseApproach_init.
  rewrite (get_truthy_present _ _ _ H). reflexivity.
Qed.

Lemma ca_init_OK info c :
  CloseApproach_init cd_to_datetime info = OK c ->
  exists p, present info "des" p /\ _designation c = p
    /\ match get_truthy info "cd" with
       | Some v => exists t, cd_to_datetime v = OK t /\ time c = Some t
       | None => time c = None
       end
    /\ match get_truthy info "dist" with
       | Some v => py_float v = OK (distance c)
       | None => distance c = S754_zero false
       end
    /\ match get_truthy info "v_rel" with
       | Some v => py_float v = OK (velocity c)
       | None => velocity c = S754_zero false
       end
    /\ neo c = None.
Proof.
  intros H.
  destruct (present_or_absent info "des") as [[p Hp] | Ha].
  - exists p. split; [assumption|].
    rewrite (ca_init_des _ _ Hp) in H.
    destruct (get_truthy info "cd") as [v|];
      [destruct (cd_to_datetime v) as [t|]; [|discriminate] |];
      cbn [bind] in H;
      (destruct (get_truthy info "dist") as [v1|];
        [destruct (py_float v1) as [d|]; [|discriminate] |]);
      cbn [bind] in H;
      (destruct (get_truthy info "v_rel") as [v2|];
        [destruct (py_float v2) as [w|]; [|discriminate] |]);
      cbn [bind] in H; injection H as <-; cbn; eauto 10.
  - rewrite (ca_init_no_des _ Ha) in H. discriminate.
Qed.

(** ** The claims on construction and serialization *)

Lemma converts_cases info k (P : Prop) :
  converts info k ->
  (get_truthy info k = None -> P) ->
  (forall v x, get_truthy info k = Some v -> py_float v = OK x -> P) ->
  P.
Proof.
  intros [Ha | (v & x & Hp & Hx)] HN HS.
  - apply HN, get_truthy_absent, Ha.
  - apply (HS v x); [apply get_truthy_present, Hp | exact Hx].
Qed.

Lemma cd_converts_cases info (P : Prop) :
  cd_converts info ->
  (get_truthy info "cd" = None -> P) ->
  (forall v t, get_truthy info "cd" = Some v -> cd_to_datetime v = OK t -> P) ->
  P.
Proof.
  intros [Ha | (v & x & Hp & Hx)] HN HS.
  - apply HN, get_truthy_absent, Ha.
  - apply (HS v x); [apply get_truthy_present, Hp | exact Hx].
Qed.

Lemma neo_init_designation info p n :
  present info "pdes" p -> NearEarthObject_init info = OK n ->
  designation n = p.
Proof.
  intros [Hp _] Hn. apply neo_init_OK in Hn as (q & [Hq _] & Hd & _).
  congruence.
Qed.

Lemma neo_init_returns info p :
  present info "pdes" p -> converts info "diameter" ->
  exists n, NearEarthObject_init info = OK n /\ designation n = p.
Proof.
  intros Hp Hc. rewrite (neo_init_pdes _ _ Hp).
  apply (converts_cases _ _ _ Hc).
  - intros ->. cbn. eauto.
  - intros v x -> ->. cbn. eauto.
Qed.

Lemma ca_init_designation info p c :
  present info "des" p -> CloseApproach_init cd_to_datetime info = OK c ->
  _designation c = p.
Proof.
  intros [Hp _] Hc. apply ca_init_OK in Hc as (q & [Hq _] & Hd & _).
  congruence.
Qed.

Lemma ca_init_returns info p :
  present info "des" p ->
  cd_converts info -> converts info "dist" -> converts info "v_rel" ->
  exists c, CloseApproach_init cd_to_datetime info = OK c
            /\ _designation c = p.
Proof.
  intros Hp Hcd Hdist Hv. rewrite (ca_init_des _ _ Hp).
  apply (cd_converts_cases _ _ Hcd);
    [intros -> | intros v t -> ->]; cbn [bind];
    (apply (converts_cases _ _ _ Hdist);
      [intros -> | intros v1 x1 -> ->]); cbn [bind];
    (apply (converts_cases _ _ _ Hv);
      [intros -> | intros v2 x2 -> ->]); cbn; eauto.
Qed.

(** C3 (amended). A [NearEarthObject] built from a mapping whose [pdes] is
    absent, empty or falsy raises the missing-designation [KeyError], and so
    does a [CloseApproach] whose [des] is; when the field is present and
    true, every successful construction stores that value as the (raw)
    designation, and construction does succeed whenever the remaining
    converted fields ([diameter]; [cd], [dist], [v_rel]) are absent, falsy or
    convertible. *)
Theorem designation_required :
  (forall info, absent_or_falsy info "pdes" ->
     NearEarthObject_init info = Raise (KeyError pdes_missing))
  /\ (forall info, absent_or_falsy info "des" ->
     CloseApproach_init cd_to_datetime info = Raise (KeyError des_missing))
  /\ (forall info p, present info "pdes" p ->
     (forall n, NearEarthObject_init info = OK n -> designation n = p)
     /\ (converts info "diameter" ->
         exists n, NearEarthObject_init info = OK n /\ designation n = p))
  /\ (forall info p, present info "des" p ->
     (forall c, CloseApproach_init cd_to_datetime info = OK c ->
                _designation c = p)
     /\ (cd_converts info -> converts info "dist" -> converts info "v_rel" ->
         exists c, CloseApproach_init cd_to_datetime info = OK c
                   /\ _designation c = p)).
Proof.
  split; [exact neo_init_no_pdes|].
  split; [exact ca_init_no_des|].
  split.
  - intros info p Hp. split.
    + intros n. apply neo_init_designation, Hp.
    + apply neo_init_returns, Hp.
  - intros info p Hp. split.
    + intros c. apply ca_init_designation, Hp.
    + apply ca_init_returns, Hp.
Qed.

(** C5. For every constructed [NearEarthObject], [serialize()] is the
    mapping with exactly the keys [designation], [name], [diameter_km],
    [potentially_hazardous], in that order: the stored designation; the
    stored name, or the empty string when there is none (never [None],
    never left out); the stored diameter, a NaN included; the stored
    flag. *)
Theorem neo_serialize_constructed info n :
  NearEarthObject_init info = OK n ->
  NearEarthObject_serialize n =
    [("designation", OVal (designation n));
     ("name", OVal (match name n with VNone => VStr EmptyString | v => v end));
     ("diameter_km", OVal (VFloat (diameter n)));
     ("potentially_hazardous", OVal (VBool (hazardous n)))]
  /\ dict_keys (NearEarthObject_serialize n) =
       ["designation"; "name"; "diameter_km"; "potentially_hazardous"]
  /\ (name n = VNone ->
      dict_get (NearEarthObject_serialize n) "name" = Some (OVal (VStr EmptyString)))
  /\ dict_get (NearEarthObject_serialize n) "name" <> Some (OVal VNone)
  /\ dict_get (NearEarthObject_serialize n) "name" <> None
  /\ (diameter n = S754_nan ->
      dict_get (NearEarthObject_serialize n) "diameter_km"
        = Some (OVal (VFloat S754_nan))).
Proof.
  intros Hn. apply neo_init_OK in Hn as (p & _ & _ & Hname & _).
  assert (Hcase : name n = VNone \/ truthy (name n) = true).
  { rewrite Hname. destruct (get_truthy info "name") as [v|] eqn:Hg.
    - right. apply get_truthy_Some in Hg as [_ Hv]. exact Hv.
    - left. reflexivity. }
  assert (Hser : NearEarthObject_serialize n =
    [("designation", OVal (designation n));
     ("name", OVal (match name n with VNone => VStr EmptyString | v => v end));
     ("diameter_km", OVal (VFloat (diameter n)));
     ("potentially_hazardous", OVal (VBool (hazardous n)))]).
  { unfold NearEarthObject_serialize.
    destruct Hcase as [-> | Ht]; [reflexivity|].
    rewrite Ht. destruct (name n); (discriminate || reflexivity). }
  rewrite Hser. cbn.
  repeat split; try discriminate.
  - intros ->. reflexivity.
  - destruct Hcase as [-> | Ht]; [discriminate|].
    destruct (name n); (discriminate || (intros [=]; discriminate)).
  - intros ->. reflexivity.
Qed.

(** C6. For every mapping the [NearEarthObject] constructor accepts,
    [hazardous] is true if and only if [pha] is present and is exactly the
    string [Y] (which is true as a condition); any other value and absence
    give false. *)
Theorem hazardous_iff_Y info n :
  NearEarthObject_init info = OK n ->
  (hazardous n = true <-> info !! "pha" = Some (VStr "Y"))
  /\ (info !! "pha" <> Some (VStr "Y") -> hazardous n = false).
Proof.
  intros Hn. apply neo_init_OK in Hn as (p & _ & _ & _ & _ & Hh).
  assert (Hiff : hazardous n = true <-> info !! "pha" = Some (VStr "Y")).
  { rewrite Hh. split.
    - destruct (get_truthy info "pha") as [v|] eqn:Hg; [|discriminate].
      apply get_truthy_Some in Hg as [Hg _].
      destruct v; try discriminate. cbn.
      intros ->%String.eqb_eq. exact Hg.
    - intros HY.
      rewrite (get_truthy_present info "pha" (VStr "Y")); [reflexivity|].
      split; [exact HY | reflexivity]. }
  split; [exact Hiff|].
  intros HnY. destruct (hazardous n); [|reflexivity].
  exfalso. apply HnY, Hiff. reflexivity.
Qed.

(** C7. A [NearEarthObject] constructed from a mapping whose [diameter] is
    absent, empty or falsy has a NaN diameter; one constructed with
    [diameter="0"] has the diameter [0.0], and the two differ (as values
    and under [==]). A [CloseApproach] constructed from a mapping whose
    [dist] (or [v_rel]) is absent, empty or falsy has distance (velocity)
    exactly [0.0], which is not a NaN. *)
Theorem default_diameter_nan_distance_zero :
  (forall info n, NearEarthObject_init info = OK n ->
     absent_or_falsy info "diameter" ->
     diameter n = S754_nan /\ float_is_nan (diameter n) = true)
  /\ (forall info n, NearEarthObject_init info = OK n ->
     info !! "diameter" = Some (VStr "0") ->
     diameter n = S754_zero false /\ float_is_nan (diameter n) = false)
  /\ (S754_nan <> S754_zero false
      /\ float_eq S754_nan (S754_zero false) = false)
  /\ (forall info c, CloseApproach_init cd_to_datetime info = OK c ->
     (absent_or_falsy info "dist" ->
        distance c = S754_zero false /\ float_is_nan (distance c) = false)
     /\ (absent_or_falsy info "v_rel" ->
        velocity c = S754_zero false /\ float_is_nan (velocity c) = false)).
Proof.
  split; [|split; [|split]].
  - intros info n Hn Ha.
    apply neo_init_OK in Hn as (p & _ & _ & _ & Hd & _).
    rewrite (get_truthy_absent _ _ Ha) in Hd. rewrite Hd. auto.
  - intros info n Hn H0.
    apply neo_init_OK in Hn as (p & _ & _ & _ & Hd & _).
    rewrite (get_truthy_present info "diameter" (VStr "0")) in Hd
      by (split; [exact H0 | reflexivity]).
    cbn [py_float] in Hd. rewrite float_of_string_0 in Hd.
    injection Hd as <-. auto.
  - split; [discriminate | reflexivity].
  - intros info c Hc.
    apply ca_init_OK in Hc as (p & _ & _ & _ & Hd & Hv & _).
    split; intros Ha; rewrite (get_truthy_absent _ _ Ha) in *.
    + rewrite Hd. auto.
    + rewrite Hv. auto.
Qed.

(** C8 (amended). Provided the designation ([pdes], [des]) is present and
    true and, for a [CloseApproach], the [cd] field is absent, falsy or
    accepted by the date parser: when [diameter], [dist] or [v_rel] is
    present and true and [float] raises on it, the constructor raises that
    very error ([v_rel] being reached once [dist] has not raised); and when
    these fields are absent, falsy or convertible the constructor returns,
    every absent or falsy [name], [diameter], [pha], [cd], [dist], [v_rel]
    taking its default ([None], NaN, [False], [None], [0.0], [0.0]). *)
Theorem conversion_errors_propagate :
  (forall info p d e, present info "pdes" p ->
     present info "diameter" d -> py_float d = Raise e ->
     NearEarthObject_init info = Raise e)
  /\ (forall info p d e, present info "des" p -> cd_converts info ->
     present info "dist" d -> py_float d = Raise e ->
     CloseApproach_init cd_to_datetime info = Raise e)
  /\ (forall info p d e, present info "des" p -> cd_converts info ->
     converts info "dist" ->
     present info "v_rel" d -> py_float d = Raise e ->
     CloseApproach_init cd_to_datetime info = Raise e)
  /\ (forall info p, present info "pdes" p -> converts info "diameter" ->
     exists n, NearEarthObject_init info = OK n
       /\ (absent_or_falsy info "name" -> name n = VNone)
       /\ (absent_or_falsy info "diameter" -> diameter n = S754_nan)
       /\ (absent_or_falsy info "pha" -> hazardous n = false))
  /\ (forall info p, present info "des" p -> cd_converts info ->
     converts info "dist" -> converts info "v_rel" ->
     exists c, CloseApproach_init cd_to_datetime info = OK c
       /\ (absent_or_falsy info "cd" -> time c = None)
       /\ (absent_or_falsy info "dist" -> distance c = S754_zero false)
       /\ (absent_or_falsy info "v_rel" -> velocity c = S754_zero false)).
Proof.
  split; [|split; [|split; [|split]]].
  - intros info p d e Hp Hd He. rewrite (neo_init_pdes _ _ Hp).
    rewrite (get_truthy_present _ _ _ Hd), He. reflexivity.
  - intros info p d e Hp Hcd Hd He. rewrite (ca_init_des _ _ Hp).
    rewrite (get_truthy_present _ _ _ Hd), He.
    apply (cd_converts_cases _ _ Hcd); [intros -> | intros v t -> ->];
      reflexivity.
  - intros info p d e Hp Hcd Hdist Hd He. rewrite (ca_init_des _ _ Hp).
    rewrite (get_truthy_present _ _ _ Hd), He.
    apply (cd_converts_cases _ _ Hcd); [intros -> | intros v t -> ->];
      (apply (converts_cases _ _ _ Hdist);
        [intros -> | intros v1 x1 -> ->]); reflexivity.
  - intros info p Hp Hc.
    destruct (neo_init_returns _ _ Hp Hc) as (n & Hn & _).
    exists n. split; [exact Hn|].
    apply neo_init_OK in Hn as (q & _ & _ & Hname & Hd & Hh).
    repeat split; intros Ha; rewrite (get_truthy_absent _ _ Ha) in *;
      assumption.
  - intros info p Hp Hcd Hdist Hv.
    destruct (ca_init_returns _ _ Hp Hcd Hdist Hv) as (c & Hc & _).
    exists c. split; [exact Hc|].
    apply ca_init_OK in Hc as (q & _ & _ & Ht & Hd & Hw & _).
    repeat split; intros Ha; rewrite (get_truthy_absent _ _ Ha) in *;
      assumption.
Qed.

End WithHelpers.

End ModelsFacts.

(** * The writers *)

Module WriteFacts.
Import Py Models PyFacts Write.

Lemma append_assoc (s t u : string) : (s +:+ t) +:+ u = s +:+ (t +:+ u).
Proof.
  induction s as [|c s IH]; [reflexivity|].
  change (String c ((s +:+ t) +:+ u) = String c (s +:+ t +:+ u)).
  congruence.
Qed.

Lemma append_nil_r (s : string) : s +:+ EmptyString = s.
Proof.
  induction s as [|c s IH]; [reflexivity|].
  change (String c (s +:+ EmptyString) = String c s). congruence.
Qed.

Section WithHelpers.

Variable datetime : Type.
Variable datetime_to_str : option datetime -> result string.
Variable writable : string -> bool.

Implicit Type r : CloseApproach datetime.
Implicit Type fs : gmap string string.

Local Abbreviation result_str := (result_str datetime datetime_to_str).
Local Abbreviation csv_line := (csv_line datetime datetime_to_str).
Local Abbreviation json_element := (json_element datetime datetime_to_str).
Local Abbreviation build_json := (build_json datetime datetime_to_str).
Local Abbreviation write_to_csv := (write_to_csv datetime datetime_to_str writable).
Local Abbreviation write_to_json :=
  (write_to_json datetime datetime_to_str writable).
Local Abbreviation renderable := (renderable datetime datetime_to_str).
Local Abbreviation row_of := (row_of datetime datetime_to_str).
Local Abbreviation serializable := (serializable datetime datetime_to_str).
Local Abbreviation element_of := (element_of datetime datetime_to_str).

(** ** Writing to an open file *)

Lemma writelines_append f s fs c :
  fs !! f = Some c ->
  writelines f s fs = (<[f := c +:+ s]> fs, OK tt).
Proof.
  revert fs c. induction s as [|a s IH]; intros fs c Hc.
  - cbn. rewrite append_nil_r, insert_id by exact Hc. reflexivity.
  - cbn [writelines]. unfold bindIO, write at 1. rewrite Hc. cbn [default].
    rewrite (IH _ (c +:+ String a EmptyString)) by apply lookup_insert_eq.
    rewrite insert_insert_eq, append_assoc. reflexivity.
Qed.

(** The loop of [write_to_csv] over records that all render: every line is
    appended, in order. *)
Lemma write_rows_all f results lines fs c :
  Forall2 (fun r line => csv_line r = OK line) results lines ->
  fs !! f = Some c ->
  write_rows datetime datetime_to_str f results fs
    = (<[f := c +:+ concat_lines lines]> fs, OK tt).
Proof.
  intros H. revert fs c.
  induction H as [|r line results lines Hr _ IH]; intros fs c Hc.
  - cbn. rewrite append_nil_r, insert_id by exact Hc. reflexivity.
  - cbn [write_rows]. unfold bindIO, lift. rewrite Hr.
    rewrite (writelines_append _ _ _ _ Hc).
    rewrite (IH _ (c +:+ line)) by apply lookup_insert_eq.
    rewrite insert_insert_eq. cbn [concat_lines fold_right].
    rewrite append_assoc. reflexivity.
Qed.

(** The loop stops at the first record that does not render; the lines of
    the records before it stay in the file. *)
Lemma write_rows_stops f pre lines r post e fs c :
  Forall2 (fun r line => csv_line r = OK line) pre lines ->
  csv_line r = Raise e ->
  fs !! f = Some c ->
  write_rows datetime datetime_to_str f (pre ++ r :: post)%list fs
    = (<[f := c +:+ concat_lines lines]> fs, Raise e).
Proof.
  intros H He. revert fs c.
  induction H as [|r' line pre lines Hr _ IH]; intros fs c Hc.
  - cbn. unfold bindIO, lift. rewrite He.
    rewrite append_nil_r, insert_id by exact Hc. reflexivity.
  - cbn [app write_rows]. unfold bindIO at 1 2, lift at 1. rewrite Hr.
    rewrite (writelines_append _ _ _ _ Hc).
    rewrite (IH _ (c +:+ line)) by apply lookup_insert_eq.
    rewrite insert_insert_eq. cbn [concat_lines fold_right].
    rewrite append_assoc. reflexivity.
Qed.

Lemma header_join :
  join "," (map VStr field_names) = OK header_line.
Proof. reflexivity. Qed.

Lemma write_to_csv_all results lines filename fs :
  writable filename = true ->
  Forall2 (fun r line => csv_line r = OK line) results lines ->
  write_to_csv results filename fs
    = (<[filename := header_line +:+ nl +:+ concat_lines lines]> fs, OK tt).
Proof.
  intros Hw H. unfold Write.write_to_csv, bindIO, open_w, lift.
  rewrite Hw, header_join.
  rewrite (writelines_append _ _ _ EmptyString) by apply lookup_insert_eq.
  rewrite insert_insert_eq.
  rewrite (write_rows_all _ _ _ _ _ H) by apply lookup_insert_eq.
  rewrite insert_insert_eq. cbn [String.append].
  rewrite append_assoc. reflexivity.
Qed.

(** ** The columns of a row *)

Lemma result_str_OK r fields :
  result_str r = OK fields ->
  exists n t, neo r = Some n /\ time_str datetime_to_str r = OK t
    /\ fields =
       [VStr t;
        VStr (if float_truthy (distance r) then float_str (distance r)
              else EmptyString);
        VStr (if float_truthy (velocity r) then float_str (velocity r)
              else EmptyString);
        _designation r;
        (if truthy (name n) then name n else VStr EmptyString);
        VStr (if float_truthy (diameter n) then float_str (diameter n)
              else EmptyString);
        VStr (if hazardous n then "True" else "False")].
Proof.
  unfold Write.result_str, neo_of.
  destruct (neo r) as [n|]; [|discriminate]. cbn [bind].
  destruct (time_str datetime_to_str r) as [t|]; [|discriminate].
  cbn [bind]. intros [= <-]. exists n, t. auto.
Qed.

(** A float column is empty exactly when the float equals [0.0], and is
    the text of the float otherwise. *)
Lemma float_column x :
  let col := if float_truthy x then float_str x else EmptyString in
  (col = EmptyString <-> float_eq x fzero = true)
  /\ (float_eq x fzero = false -> col = float_str x).
Proof.
  cbn zeta. rewrite float_truthy_eq.
  destruct (float_eq x fzero); cbn [negb].
  - split; [tauto | discriminate].
  - split; [|reflexivity]. split; [|discriminate].
    intros H. destruct (float_str_nonempty x H).
Qed.

Lemma float_of_0_3312 :
  py_float (VStr "0.3312") = OK (S754_finite false 5966368786340433 (-54)).
Proof. vm_compute. reflexivity. Qed.

(** C1. In the tuple behind every CSV row, the [distance_au] and
    [velocity_km_s] columns are the empty string exactly when the stored
    float equals [0.0], and the text of the stored float otherwise; a
    distance [0.0] gives an empty field and the distance [0.3312] gives
    the text [0.3312]. *)
Theorem csv_distance_velocity_columns r fields :
  result_str r = OK fields ->
  exists t d v des nm dm hz,
    fields = [VStr t; VStr d; VStr v; des; nm; VStr dm; VStr hz]
    /\ (d = EmptyString <-> float_eq (distance r) fzero = true)
    /\ (float_eq (distance r) fzero = false -> d = float_str (distance r))
    /\ (v = EmptyString <-> float_eq (velocity r) fzero = true)
    /\ (float_eq (velocity r) fzero = false -> v = float_str (velocity r))
    /\ (distance r = S754_zero false -> d = EmptyString)
    /\ (py_float (VStr "0.3312") = OK (distance r) -> d = "0.3312").
Proof.
  intros H. apply result_str_OK in H as (n & t & Hn & Ht & ->).
  destruct (float_column (distance r)) as [Hd1 Hd2].
  destruct (float_column (velocity r)) as [Hv1 Hv2].
  eexists _, _, _, _, _, _, _. split; [reflexivity|].
  split; [exact Hd1|]. split; [exact Hd2|].
  split; [exact Hv1|]. split; [exact Hv2|]. split.
  - intros Hz. rewrite Hz. reflexivity.
  - rewrite float_of_0_3312. intros [= <-]. vm_compute. reflexivity.
Qed.

(** C2. In the tuple behind every CSV row, the [diameter_km] column is the
    empty string only when the diameter of the linked NEO equals zero; a
    NaN diameter gives the text [nan], never an empty field, and the
    [potentially_hazardous] column is the text [True] or [False], never
    empty. *)
Theorem csv_diameter_hazardous_columns r fields n :
  result_str r = OK fields ->
  neo r = Some n ->
  exists t d v des nm dm hz,
    fields = [VStr t; VStr d; VStr v; des; nm; VStr dm; VStr hz]
    /\ (dm = EmptyString <-> float_eq (diameter n) fzero = true)
    /\ (float_eq (diameter n) fzero = false -> dm = float_str (diameter n))
    /\ (float_is_nan (diameter n) = true -> dm = "nan")
    /\ hz = (if hazardous n then "True" else "False")
    /\ hz <> EmptyString.
Proof.
  intros H Hn. apply result_str_OK in H as (n' & t & Hn' & Ht & ->).
  assert (n' = n) as -> by congruence.
  destruct (float_column (diameter n)) as [Hd1 Hd2].
  eexists _, _, _, _, _, _, _. split; [reflexivity|].
  repeat split; try (apply Hd1 || apply Hd2).
  - destruct (diameter n); try discriminate. reflexivity.
  - destruct (hazardous n); discriminate.
Qed.

(** ** The CSV file *)

Lemma row_of_csv_line r line : row_of r line -> csv_line r = OK line.
Proof.
  intros (fields & row & Hf & Hj & ->). unfold Write.csv_line.
  rewrite Hf. cbn [bind]. rewrite Hj. reflexivity.
Qed.

Lemma renderable_row r : renderable r -> exists line, row_of r line.
Proof.
  intros ((n & Hn & Hname) & (t & Ht) & (d & Hd)).
  unfold row_of, Write.result_str, neo_of. rewrite Hn, Ht, Hd. cbn [bind].
  assert (exists s, (if truthy (name n) then name n else VStr EmptyString)
                    = VStr s) as [s ->].
  { destruct Hname as [-> | [s Hs]]; [eauto|].
    rewrite Hs. destruct (truthy (VStr s)); eauto. }
  eexists _, _, _. split; [reflexivity|]. split; reflexivity.
Qed.

Lemma renderable_rows results :
  Forall renderable results ->
  exists lines, Forall2 row_of results lines.
Proof.
  induction 1 as [|r results Hr _ [lines IH]].
  - exists []. constructor.
  - destruct (renderable_row r Hr) as [line Hl].
    exists (line :: lines). constructor; assumption.
Qed.

(** C9. [write_to_csv] leaves in the file exactly one header row, with the
    column names [datetime_utc], [distance_au], [velocity_km_s],
    [designation], [name], [diameter_km], [potentially_hazardous] in that
    order, followed by one row per input record, each ended by a line feed,
    in input order: nothing is sorted and nothing is dropped. *)
Theorem csv_header_then_rows results filename fs :
  writable filename = true ->
  Forall renderable results ->
  exists lines,
    Forall2 row_of results lines
    /\ List.length lines = List.length results
    /\ write_to_csv results filename fs
       = (<[filename := header_line +:+ nl +:+ concat_lines lines]> fs,
          OK tt).
Proof.
  intros Hw Hr. destruct (renderable_rows results Hr) as [lines Hl].
  exists lines. split; [exact Hl|]. split.
  - symmetry. eapply Forall2_length, Hl.
  - apply write_to_csv_all; [exact Hw|].
    eapply Forall2_impl; [exact Hl|]. intros r line. apply row_of_csv_line.
Qed.

(** ** The JSON file *)

(** The loop of [write_to_json] appends, in order, the element of every
    record, and raises what the first failing record raises. *)
Lemma build_json_mapM acc results :
  build_json acc results =
    let* es := mapM json_element results in OK (acc ++ es)%list.
Proof.
  revert acc. induction results as [|r results IH]; intros acc.
  - cbn. rewrite app_nil_r. reflexivity.
  - cbn [Write.build_json mapM].
    destruct (json_element r) as [e|err]; [|reflexivity].
    cbn [bind]. rewrite IH.
    destruct (mapM json_element results) as [es|err]; [|reflexivity].
    cbn [bind]. rewrite <- app_assoc. reflexivity.
Qed.

Lemma neo_serialize_keys n :
  dict_keys (NearEarthObject_serialize n) =
    ["designation"; "name"; "diameter_km"; "potentially_hazardous"].
Proof.
  unfold NearEarthObject_serialize. destruct (truthy (name n)); reflexivity.
Qed.

Lemma element_of_json_element r e : element_of r e -> json_element r = OK e.
Proof.
  intros (n & t & cs & Hn & Ht & Hs & Hcs & _ & ->).
  unfold Write.json_element, neo_of. rewrite Hn. cbn [bind].
  rewrite Hs. cbn [bind]. rewrite Hcs. reflexivity.
Qed.

Lemma serializable_element r : serializable r -> exists e, element_of r e.
Proof.
  intros [[n Hn] [t Ht]]. unfold element_of.
  eexists _, n, t, _. split; [exact Hn|]. split; [exact Ht|].
  split; [unfold CloseApproach_serialize; rewrite Ht; reflexivity|].
  split; [reflexivity|]. split; [apply neo_serialize_keys | reflexivity].
Qed.

Lemma serializable_elements results :
  Forall serializable results ->
  exists elems, Forall2 element_of results elems.
Proof.
  induction 1 as [|r results Hr _ [elems IH]].
  - exists []. constructor.
  - destruct (serializable_element r Hr) as [e He].
    exists (e :: elems). constructor; assumption.
Qed.

Lemma mapM_all results elems :
  Forall2 element_of results elems ->
  mapM json_element results = OK elems.
Proof.
  induction 1 as [|r e results elems He _ IH]; [reflexivity|].
  cbn [mapM]. rewrite (element_of_json_element _ _ He). cbn [bind].
  rewrite IH. reflexivity.
Qed.

Lemma mapM_stops pre r post err :
  Forall serializable pre ->
  json_element r = Raise err ->
  mapM json_element (pre ++ r :: post)%list = Raise err.
Proof.
  intros Hpre Hr. induction Hpre as [|r' pre Hr' _ IH].
  - cbn. rewrite Hr. reflexivity.
  - destruct (serializable_element r' Hr') as [e He].
    cbn [app mapM]. rewrite (element_of_json_element _ _ He). cbn [bind].
    rewrite IH. reflexivity.
Qed.

(** C4. [write_to_json] writes one JSON array whose elements, in the order
    of the input, are each the serialization of the approach
    ([datetime_utc], [distance_au], [velocity_km_s]) with, under the added
    key [neo], the serialization of its NEO ([designation], [name],
    [diameter_km], [potentially_hazardous]); for an empty input the file
    holds the two characters of the empty array. *)
Theorem json_array_of_elements :
  (forall results filename fs,
     writable filename = true ->
     Forall serializable results ->
     exists elems,
       Forall2 element_of results elems
       /\ write_to_json results filename fs
          = (<[filename := Json.encode (OList (map ODict elems))]> fs,
             OK tt))
  /\ (forall filename fs,
     writable filename = true ->
     write_to_json [] filename fs = (<[filename := "[]"]> fs, OK tt)).
Proof.
  split.
  - intros results filename fs Hw Hs.
    destruct (serializable_elements results Hs) as [elems He].
    exists elems. split; [exact He|].
    unfold Write.write_to_json, bindIO, lift, open_w, json_dump, write.
    rewrite build_json_mapM, (mapM_all _ _ He), Hw. cbn [bind app].
    rewrite lookup_insert_eq, insert_insert_eq. reflexivity.
  - intros filename fs Hw.
    unfold Write.write_to_json, bindIO, lift, open_w, json_dump, write.
    cbn [Write.build_json]. rewrite Hw.
    rewrite lookup_insert_eq, insert_insert_eq. reflexivity.
Qed.

(** C10. [write_to_json] serializes every record before it opens the
    destination: when the serialization of a record fails (as it does, with
    [AttributeError], for an approach whose [neo] is still [None]) after
    the records before it have been serialized, that error is raised and
    the file system is left as it was: the destination is neither created
    nor truncated. *)
Theorem json_serializes_before_open :
  (forall pre r post err filename fs,
     Forall serializable pre ->
     json_element r = Raise err ->
     write_to_json (pre ++ r :: post)%list filename fs = (fs, Raise err))
  /\ (forall r, neo r = None -> json_element r = Raise AttributeError).
Proof.
  split.
  - intros pre r post err filename fs Hpre Hr.
    unfold Write.write_to_json, bindIO, lift.
    rewrite build_json_mapM, (mapM_stops _ _ _ _ Hpre Hr). reflexivity.
  - intros r Hn. unfold Write.json_element, neo_of. rewrite Hn. reflexivity.
Qed.

End WithHelpers.

End WriteFacts.

(** * More on the constructors and on the renderings *)

Module RenderFacts.
Import Py Models Render PyFacts ModelsFacts WriteFacts.

Section WithHelpers.

Variable datetime : Type.
Variable cd_to_datetime : PyVal -> result datetime.
Variable datetime_to_str : option datetime -> result string.

Implicit Type info : gmap string PyVal.
Implicit Type c : CloseApproach datetime.

Lemma get_truthy_agree info1 info2 k :
  info1 !! k = info2 !! k -> get_truthy info1 k = get_truthy info2 k.
Proof. unfold get_truthy. intros ->. reflexivity. Qed.

(** X1. Each constructor reads four keys and nothing else: two mappings
    that agree on [pdes], [name], [diameter], [pha] build the same
    [NearEarthObject] or raise the same error, and two that agree on
    [des], [cd], [dist], [v_rel] the same [CloseApproach]. *)
Theorem constructors_read_four_keys :
  (forall info1 info2,
     (forall k, k ∈ ["pdes"; "name"; "diameter"; "pha"] ->
                info1 !! k = info2 !! k) ->
     NearEarthObject_init info1 = NearEarthObject_init info2)
  /\ (forall info1 info2,
     (forall k, k ∈ ["des"; "cd"; "dist"; "v_rel"] ->
                info1 !! k = info2 !! k) ->
     CloseApproach_init cd_to_datetime info1
     = CloseApproach_init cd_to_datetime info2).
Proof.
  split; intros info1 info2 H.
  - unfold NearEarthObject_init.
    rewrite (get_truthy_agree info1 info2 "pdes") by (apply H; set_solver).
    rewrite (get_truthy_agree info1 info2 "name") by (apply H; set_solver).
    rewrite (get_truthy_agree info1 info2 "diameter")
      by (apply H; set_solver).
    rewrite (get_truthy_agree info1 info2 "pha") by (apply H; set_solver).
    reflexivity.
  - unfold CloseApproach_init.
    rewrite (get_truthy_agree info1 info2 "des") by (apply H; set_solver).
    rewrite (get_truthy_agree info1 info2 "cd") by (apply H; set_solver).
    rewrite (get_truthy_agree info1 info2 "dist") by (apply H; set_solver).
    rewrite (get_truthy_agree info1 info2 "v_rel") by (apply H; set_solver).
    reflexivity.
Qed.

Lemma neo_init_approaches info n :
  NearEarthObject_init info = OK n -> approaches n = [].
Proof.
  intros H.
  destruct (present_or_absent info "pdes") as [[p Hp] | Ha].
  - rewrite (neo_init_pdes _ _ Hp) in H.
    destruct (get_truthy info "diameter") as [v|];
      [destruct (py_float v); [|discriminate]|];
      cbn in H; injection H as <-; reflexivity.
  - rewrite (neo_init_no_pdes _ Ha) in H. discriminate.
Qed.

(** X2. What holds of every object a constructor returns: the designation
    is a true value; the name of a NEO is [None] or a true value, and its
    collection of approaches is empty; a close approach is not linked
    ([neo] is [None]) and its time is [None] exactly when [cd] was absent
    or falsy. *)
Theorem constructed_invariants :
  (forall info n, NearEarthObject_init info = OK n ->
     truthy (designation n) = true
     /\ (name n = VNone \/ truthy (name n) = true)
     /\ approaches n = [])
  /\ (forall info c, CloseApproach_init cd_to_datetime info = OK c ->
     truthy (_designation c) = true
     /\ neo c = None
     /\ (time c = None <-> absent_or_falsy info "cd")).
Proof.
  split.
  - intros info n Hn. pose proof (neo_init_approaches _ _ Hn) as Ha.
    apply neo_init_OK in Hn as (p & [_ Hp] & Hd & Hname & _).
    split; [rewrite Hd; exact Hp|]. split; [|exact Ha].
    rewrite Hname. destruct (get_truthy info "name") as [v|] eqn:Hg.
    + right. apply get_truthy_Some in Hg as [_ Hv]. exact Hv.
    + left. reflexivity.
  - intros info c Hc.
    apply ca_init_OK in Hc as (p & [_ Hp] & Hd & Ht & _ & _ & Hneo).
    split; [rewrite Hd; exact Hp|]. split; [exact Hneo|].
    destruct (get_truthy info "cd") as [v|] eqn:Hg.
    + destruct Ht as (t & _ & Ht). rewrite Ht. split; [discriminate|].
      intros Ha. apply get_truthy_absent in Ha. congruence.
    + split; [|intros _; exact Ht].
      intros _. apply get_truthy_None. exact Hg.
Qed.

(** X3. The full name of a constructed NEO whose designation is the
    string [d]: [d] alone when [name] was absent, empty or falsy, and
    [d (s)] when [name] was the non-empty string [s]. An empty name never
    gives empty parentheses. *)
Theorem fullname_constructed info n d :
  NearEarthObject_init info = OK n ->
  info !! "pdes" = Some (VStr d) ->
  (absent_or_falsy info "name" -> fullname n = d)
  /\ (forall s, info !! "name" = Some (VStr s) -> s <> EmptyString ->
      fullname n = d +:+ " (" +:+ s +:+ ")").
Proof.
  intros Hn Hd.
  apply neo_init_OK in Hn as (p & [Hp _] & Hdes & Hname & _).
  assert (p = VStr d) as -> by congruence.
  unfold fullname. rewrite Hdes, Hname. split.
  - intros Ha. rewrite (get_truthy_absent _ _ Ha). reflexivity.
  - intros s Hs Hne.
    assert (Ht : truthy (VStr s) = true).
    { cbn. destruct (String.eqb s EmptyString) eqn:He; [|reflexivity].
      apply String.eqb_eq in He. contradiction. }
    rewrite (get_truthy_present info "name" (VStr s))
      by (split; [exact Hs | exact Ht]).
    change (default VNone (Some (VStr s))) with (VStr s).
    rewrite Ht. reflexivity.
Qed.

(** X4. [str] of a constructed NEO whose diameter was absent, empty or
    falsy reads [has a diameter of nan km]. *)
Theorem neo_str_unknown_diameter info n :
  NearEarthObject_init info = OK n ->
  absent_or_falsy info "diameter" ->
  NearEarthObject_str n =
    "NEO " +:+ fullname n +:+ " has a diameter of nan km and "
    +:+ (if hazardous n then "is" else "is not")
    +:+ " potentially hazardous.".
Proof.
  intros Hn Ha.
  apply neo_init_OK in Hn as (p & _ & _ & _ & Hd & _).
  rewrite (get_truthy_absent _ _ Ha) in Hd.
  unfold NearEarthObject_str. rewrite Hd. cbn [format_f].
  rewrite !append_assoc. reflexivity.
Qed.

(** X5. [repr] of a constructed NEO with a string designation [d] and
    neither name nor diameter shows [name=None] and [diameter=nan]. *)
Theorem neo_repr_defaults info n d :
  NearEarthObject_init info = OK n ->
  info !! "pdes" = Some (VStr d) ->
  absent_or_falsy info "name" ->
  absent_or_falsy info "diameter" ->
  NearEarthObject_repr n =
    "NearEarthObject(designation=" +:+ str_repr d
    +:+ ", name=None, diameter=nan, hazardous="
    +:+ (if hazardous n then "True" else "False") +:+ ")".
Proof.
  intros Hn Hd Hname Hdiam.
  apply neo_init_OK in Hn as (p & [Hp _] & Hdes & Hnm & Hdm & _).
  assert (p = VStr d) as -> by congruence.
  rewrite (get_truthy_absent _ _ Hname) in Hnm.
  rewrite (get_truthy_absent _ _ Hdiam) in Hdm.
  unfold NearEarthObject_repr. rewrite Hdes, Hnm, Hdm.
  cbn [py_repr py_str format_f default].
  rewrite !append_assoc. reflexivity.
Qed.

(** X6. [str] of a close approach needs the link to its NEO: while [neo]
    is [None] it never returns, and it raises [AttributeError] as soon as
    the time formats; so [str] of an approach just constructed always
    raises. *)
Theorem approach_str_needs_neo :
  (forall c s, neo c = None -> CloseApproach_str datetime_to_str c <> OK s)
  /\ (forall c t, neo c = None -> time_str datetime_to_str c = OK t ->
      CloseApproach_str datetime_to_str c = Raise AttributeError)
  /\ (forall info c s, CloseApproach_init cd_to_datetime info = OK c ->
      CloseApproach_str datetime_to_str c <> OK s).
Proof.
  assert (H1 : forall c s, neo c = None ->
                 CloseApproach_str datetime_to_str c <> OK s).
  { intros c s Hn. unfold CloseApproach_str, neo_of. rewrite Hn.
    destruct (time_str datetime_to_str c); discriminate. }
  split; [exact H1|]. split.
  - intros c t Hn Ht. unfold CloseApproach_str, neo_of.
    rewrite Ht, Hn. reflexivity.
  - intros info c s Hc. apply H1.
    apply ca_init_OK in Hc as (p & _ & _ & _ & _ & _ & Hneo). exact Hneo.
Qed.

(** X7. [repr] of a close approach does not need the link: for an
    approach just constructed whose time formats as [t] and whose [dist]
    and [v_rel] were absent, empty or falsy, it returns the text with
    [distance=0.00], [velocity=0.00] and [neo=None]. *)
Theorem approach_repr_before_linkage info c t :
  CloseApproach_init cd_to_datetime info = OK c ->
  time_str datetime_to_str c = OK t ->
  absent_or_falsy info "dist" ->
  absent_or_falsy info "v_rel" ->
  CloseApproach_repr datetime_to_str c =
    OK ("CloseApproach(time=" +:+ str_repr t
        +:+ ", distance=0.00, velocity=0.00, neo=None)").
Proof.
  intros Hc Ht Hd Hv.
  apply ca_init_OK in Hc as (p & _ & _ & _ & Hdist & Hvel & Hneo).
  rewrite (get_truthy_absent _ _ Hd) in Hdist.
  rewrite (get_truthy_absent _ _ Hv) in Hvel.
  unfold CloseApproach_repr. rewrite Ht, Hneo, Hdist, Hvel. cbn [bind].
  f_equal. rewrite !append_assoc. reflexivity.
Qed.

End WithHelpers.

End RenderFacts.

(** * More on the writers *)

Module WriteMoreFacts.
Import Py Models Write Render WriteMore PyFacts ModelsFacts WriteFacts.

Section WithHelpers.

Variable datetime : Type.
Variable cd_to_datetime : PyVal -> result datetime.
Variable datetime_to_str : option datetime -> result string.
Variable writable : string -> bool.

Implicit Type r : CloseApproach datetime.
Implicit Type fs : gmap string string.

Local Abbreviation result_str := (result_str datetime datetime_to_str).
Local Abbreviation csv_line := (csv_line datetime datetime_to_str).
Local Abbreviation json_element := (json_element datetime datetime_to_str).
Local Abbreviation write_to_csv := (write_to_csv datetime datetime_to_str writable).
Local Abbreviation write_to_json :=
  (write_to_json datetime datetime_to_str writable).
Local Abbreviation row_of := (row_of datetime datetime_to_str).
Local Abbreviation serializable := (serializable datetime datetime_to_str).
Local Abbreviation rendered_lines := (rendered_lines datetime datetime_to_str).
Local Abbreviation first_error := (first_error datetime datetime_to_str).

(** ** Every call of the writers *)

Lemma write_rows_any f results fs c :
  fs !! f = Some c ->
  write_rows datetime datetime_to_str f results fs
    = (<[f := c +:+ concat_lines (rendered_lines results)]> fs,
       first_error results).
Proof.
  revert fs c. induction results as [|r results IH]; intros fs c Hc.
  - cbn. rewrite append_nil_r, insert_id by exact Hc. reflexivity.
  - cbn [write_rows WriteMore.rendered_lines WriteMore.first_error].
    unfold bindIO at 1, lift at 1.
    destruct (csv_line r) as [line|e].
    + unfold bindIO at 1. rewrite (writelines_append _ _ _ _ Hc).
      rewrite (IH _ (c +:+ line)) by apply lookup_insert_eq.
      rewrite insert_insert_eq. cbn [concat_lines fold_right].
      rewrite append_assoc. reflexivity.
    + cbn [concat_lines fold_right].
      rewrite append_nil_r, insert_id by exact Hc. reflexivity.
Qed.

Lemma write_to_csv_any results filename fs :
  write_to_csv results filename fs =
    if writable filename
    then (<[filename :=
              header_line +:+ nl +:+ concat_lines (rendered_lines results)]> fs,
          first_error results)
    else (fs, Raise OSError).
Proof.
  unfold Write.write_to_csv, bindIO, open_w, lift.
  destruct (writable filename); [|reflexivity].
  rewrite header_join.
  rewrite (writelines_append _ _ _ EmptyString) by apply lookup_insert_eq.
  rewrite insert_insert_eq.
  rewrite (write_rows_any _ _ _ _ (lookup_insert_eq _ _ _)).
  rewrite insert_insert_eq. cbn [String.append].
  rewrite append_assoc. reflexivity.
Qed.

Lemma write_to_json_any results filename fs :
  write_to_json results filename fs =
    match mapM json_element results with
    | Raise e => (fs, Raise e)
    | OK elems =>
        if writable filename
        then (<[filename := Json.encode (OList (map ODict elems))]> fs, OK tt)
        else (fs, Raise OSError)
    end.
Proof.
  unfold Write.write_to_json, bindIO, lift, open_w, json_dump, write.
  rewrite build_json_mapM.
  destruct (mapM json_element results) as [elems|e]; [|reflexivity].
  cbn [bind app]. destruct (writable filename); [|reflexivity].
  rewrite lookup_insert_eq, insert_insert_eq. reflexivity.
Qed.

Lemma rendered_lines_stop pre lines r post e :
  Forall2 (fun r line => csv_line r = OK line) pre lines ->
  csv_line r = Raise e ->
  rendered_lines (pre ++ r :: post)%list = lines
  /\ first_error (pre ++ r :: post)%list = Raise e.
Proof.
  intros H He. induction H as [|r' line pre lines Hr _ [IH1 IH2]].
  - cbn. rewrite He. auto.
  - cbn [app WriteMore.rendered_lines WriteMore.first_error].
    rewrite Hr, IH1, IH2. auto.
Qed.

(** X8. [write_to_csv] writes as it goes: when a record fails to render
    (an approach whose [neo] is still [None] raises [AttributeError]) after
    the records before it have rendered, that error is raised and the file
    is left with the header and the rows of the records before it. *)
Theorem csv_keeps_rows_before_failure :
  (forall pre lines r post e filename fs,
     writable filename = true ->
     Forall2 row_of pre lines ->
     csv_line r = Raise e ->
     write_to_csv (pre ++ r :: post)%list filename fs
     = (<[filename := header_line +:+ nl +:+ concat_lines lines]> fs,
        Raise e))
  /\ (forall r, neo r = None -> csv_line r = Raise AttributeError).
Proof.
  split.
  - intros pre lines r post e filename fs Hw Hpre He.
    rewrite write_to_csv_any, Hw.
    destruct (rendered_lines_stop pre lines r post e) as [-> ->];
      [|exact He|reflexivity].
    eapply Forall2_impl; [exact Hpre|]. intros r' l. apply row_of_csv_line.
  - intros r Hn. unfold Write.csv_line, Write.result_str, neo_of.
    rewrite Hn. reflexivity.
Qed.

(** X9. A destination that cannot be opened: [write_to_csv] raises
    [OSError] whatever the records are, [write_to_json] raises it once
    every record has been serialized, and neither changes the file
    system. *)
Theorem unwritable_destination results filename fs :
  writable filename = false ->
  write_to_csv results filename fs = (fs, Raise OSError)
  /\ (Forall serializable results ->
      write_to_json results filename fs = (fs, Raise OSError)).
Proof.
  intros Hw. split.
  - rewrite write_to_csv_any, Hw. reflexivity.
  - intros Hs. destruct (serializable_elements _ _ results Hs) as [elems He].
    rewrite write_to_json_any, (mapM_all _ _ _ _ He), Hw. reflexivity.
Qed.

(** X10. The writers touch no file but their destination: after any call,
    whether it returns or raises, every other path holds what it held. *)
Theorem writers_touch_only_destination results filename fs p :
  p <> filename ->
  fst (write_to_csv results filename fs) !! p = fs !! p
  /\ fst (write_to_json results filename fs) !! p = fs !! p.
Proof.
  intros Hp. split.
  - rewrite write_to_csv_any. destruct (writable filename); [|reflexivity].
    cbn [fst]. apply lookup_insert_ne. congruence.
  - rewrite write_to_json_any.
    destruct (mapM json_element results); [|reflexivity].
    destruct (writable filename); [|reflexivity].
    cbn [fst]. apply lookup_insert_ne. congruence.
Qed.

(** X11. The last write wins. Whatever an earlier call of [write_to_csv]
    on the same destination did, a later call behaves as if it had not
    happened; the same holds of [write_to_json] when the records of the
    later call all serialize. *)
Theorem last_write_wins :
  (forall results1 results2 filename fs,
     write_to_csv results2 filename
       (fst (write_to_csv results1 filename fs))
     = write_to_csv results2 filename fs)
  /\ (forall results1 results2 filename fs,
     Forall serializable results2 ->
     write_to_json results2 filename
       (fst (write_to_json results1 filename fs))
     = write_to_json results2 filename fs).
Proof.
  split.
  - intros results1 results2 filename fs.
    rewrite !write_to_csv_any.
    destruct (writable filename); [|reflexivity].
    cbn [fst]. rewrite insert_insert_eq. reflexivity.
  - intros results1 results2 filename fs Hs.
    destruct (serializable_elements _ _ results2 Hs) as [elems He].
    rewrite !write_to_json_any, (mapM_all _ _ _ _ He).
    destruct (mapM json_element results1); [|reflexivity].
    destruct (writable filename); [|reflexivity].
    cbn [fst]. rewrite insert_insert_eq. reflexivity.
Qed.

(** ** Commas in a row *)

Lemma count_char_app a s t :
  count_char a (s +:+ t) = (count_char a s + count_char a t)%nat.
Proof.
  induction s as [|b s IH]; [reflexivity|].
  change (count_char a (String b (s +:+ t))
          = (count_char a (String b s) + count_char a t)%nat).
  cbn [count_char]. rewrite IH. lia.
Qed.

(** X12. Fields are joined as they are, without quoting: a row has six
    commas more than its seven fields hold between them, so a name or a
    designation with a comma in it adds a column to its row. *)
Theorem csv_row_commas r fields row :
  result_str r = OK fields ->
  join "," fields = OK row ->
  count_char comma row = (6 + list_sum (map commas_in fields))%nat.
Proof.
  intros Hf Hj. apply result_str_OK in Hf as (n & t & _ & _ & ->).
  destruct (_designation r) as [| | | |des]; try discriminate Hj.
  destruct (if truthy (name n) then name n else VStr EmptyString)
    as [| | | |nm]; try discriminate Hj.
  cbn in Hj. injection Hj as <-.
  rewrite !count_char_app. cbn [map commas_in list_sum fold_right].
  change (count_char comma ",") with 1%nat. lia.
Qed.

(** ** From the constructor to the row *)

(** X13. The [distance_au] column of the row of a constructed approach,
    once linked, is empty exactly when [dist] was absent, empty or falsy
    or was converted to a zero: in the file, a distance given as zero
    cannot be told from a distance that was not given. *)
Theorem csv_distance_of_constructed info c n fields :
  CloseApproach_init cd_to_datetime info = OK c ->
  result_str (with_neo c n) = OK fields ->
  (fields !! 1%nat = Some (VStr EmptyString)
   <-> (absent_or_falsy info "dist"
        \/ exists v x, present info "dist" v /\ py_float v = OK x
                       /\ float_eq x fzero = true)).
Proof.
  intros Hc Hf.
  apply ca_init_OK in Hc as (p & _ & _ & _ & Hd & _).
  apply result_str_OK in Hf as (n' & t & _ & _ & ->).
  cbn [lookup list_lookup distance with_neo].
  destruct (float_column (distance c)) as [Hcol _].
  set (col := if float_truthy (distance c) then float_str (distance c)
              else EmptyString) in *.
  assert (Hiff : Some (VStr col) = Some (VStr EmptyString)
                 <-> float_eq (distance c) fzero = true).
  { rewrite <- Hcol. split; [intros [= ->]; reflexivity | intros ->; reflexivity]. }
  rewrite Hiff. clear Hiff Hcol col.
  destruct (get_truthy info "dist") as [v|] eqn:Hg.
  - apply get_truthy_Some in Hg. split.
    + intros Hz. right. exists v, (distance c). auto.
    + intros [Ha | (v' & x & Hp & Hx & Hz)].
      * destruct (present_not_absent _ _ _ Hg Ha).
      * destruct Hg as [Hg _], Hp as [Hp _].
        assert (v' = v) as -> by congruence.
        assert (x = distance c) as -> by congruence. exact Hz.
  - rewrite Hd. split; [|reflexivity].
    intros _. left. apply get_truthy_None. exact Hg.
Qed.

(** ** The characters of the JSON file *)

Lemma all_printable_app s t :
  all_printable (s +:+ t) = all_printable s && all_printable t.
Proof.
  induction s as [|a s IH]; [reflexivity|].
  change (all_printable (String a (s +:+ t))
          = all_printable (String a s) && all_printable t).
  cbn [all_printable]. rewrite IH, andb_assoc. reflexivity.
Qed.

Lemma escape_char_printable a : all_printable (Json.escape_char a) = true.
Proof. destruct a as [[] [] [] [] [] [] [] []]; reflexivity. Qed.

Lemma escape_printable s : all_printable (Json.escape s) = true.
Proof.
  induction s as [|a s IH]; [reflexivity|].
  cbn [Json.escape]. rewrite all_printable_app, escape_char_printable, IH.
  reflexivity.
Qed.

Lemma encode_str_printable s : all_printable (Json.encode_str s) = true.
Proof.
  unfold Json.encode_str. rewrite !all_printable_app, escape_printable.
  reflexivity.
Qed.

Lemma uint_printable (d : Decimal.uint) :
  all_printable (NilEmpty.string_of_uint d) = true.
Proof. induction d; cbn; auto. Qed.

Lemma dec_printable n : all_printable (dec n) = true.
Proof.
  unfold dec, NilZero.string_of_uint.
  destruct (N.to_uint n); try reflexivity; apply uint_printable.
Qed.

Lemma zeros_printable k : all_printable (zeros k) = true.
Proof. induction k; cbn; auto. Qed.

Lemma strip_trailing_zeros_printable s :
  all_printable s = true -> all_printable (strip_trailing_zeros s) = true.
Proof.
  induction s as [|a s IH]; [reflexivity|].
  cbn [all_printable strip_trailing_zeros].
  intros [Ha Hs]%andb_prop. specialize (IH Hs).
  destruct (strip_trailing_zeros s) as [|b u].
  - destruct (code a =? 48)%N; [reflexivity|].
    cbn [all_printable]. rewrite Ha. reflexivity.
  - cbn [all_printable] in *. rewrite Ha. exact IH.
Qed.

Lemma substring_printable s : forall i k,
  all_printable s = true -> all_printable (String.substring i k s) = true.
Proof.
  induction s as [|a s IH]; intros i k H.
  - destruct i, k; reflexivity.
  - cbn [all_printable] in H. apply andb_prop in H as [Ha Hs].
    destruct i as [|i]; [destruct k as [|k]|]; cbn [String.substring].
    + reflexivity.
    + cbn [all_printable]. rewrite Ha. apply IH. exact Hs.
    + apply IH. exact Hs.
Qed.

Lemma pad2_printable s : all_printable s = true -> all_printable (pad2 s) = true.
Proof.
  intros H. unfold pad2. destruct s as [|a [|b u]]; exact H.
Qed.

Lemma format_repr_printable ds decpt :
  all_printable ds = true -> all_printable (format_repr ds decpt) = true.
Proof.
  intros H. unfold format_repr.
  destruct ((decpt <=? -4) || (16 <? decpt)).
  - rewrite !all_printable_app, pad2_printable by apply dec_printable.
    assert (Hm : all_printable
                   match ds with
                   | EmptyString => EmptyString
                   | String a EmptyString => ds
                   | String a (String _ _ as rest) => String a ("." +:+ rest)
                   end = true).
    { destruct ds as [|a [|b u]]; exact H. }
    rewrite Hm. destruct (_ <? 0); reflexivity.
  - destruct (decpt <=? 0).
    + rewrite !all_printable_app, zeros_printable, H. reflexivity.
    + destruct (_ <=? decpt).
      * rewrite !all_printable_app, zeros_printable, H. reflexivity.
      * rewrite !all_printable_app, !substring_printable by exact H.
        reflexivity.
Qed.

Lemma float_repr_printable x : all_printable (float_repr x) = true.
Proof.
  destruct x as [[]|[]| |s m e]; try reflexivity.
  unfold float_repr, dtoa.
  destruct (ratio m e) as [num den].
  destruct (shortest _ _ _ _ _ _) as [D q].
  rewrite all_printable_app, format_repr_printable
    by apply strip_trailing_zeros_printable, dec_printable.
  destruct s; reflexivity.
Qed.

Lemma encode_val_printable v : all_printable (Json.encode_val v) = true.
Proof.
  destruct v as [|[]|z|x|s]; try reflexivity.
  - unfold Json.encode_val, Json.int_repr.
    destruct (z <? 0); [rewrite all_printable_app|]; rewrite dec_printable;
      reflexivity.
  - destruct x as [[]|[]| |? ? ?]; try reflexivity.
    apply float_repr_printable.
  - apply encode_str_printable.
Qed.

Lemma sep_concat_printable sep l :
  all_printable sep = true ->
  Forall (fun x => all_printable x = true) l ->
  all_printable (Json.sep_concat sep l) = true.
Proof.
  intros Hsep H. induction H as [|x l Hx Hl IH]; [reflexivity|].
  destruct l as [|y l]; [exact Hx|].
  cbn [Json.sep_concat] in *.
  rewrite !all_printable_app, Hx, Hsep, IH. reflexivity.
Qed.

(** Induction on an object through the lists and the pairs inside it. *)
Fixpoint PyObj_nested_ind (P : PyObj -> Prop)
    (HV : forall v, P (OVal v))
    (HL : forall l, Forall P l -> P (OList l))
    (HD : forall d, Forall (fun kv => P (snd kv)) d -> P (ODict d))
    (o : PyObj) {struct o} : P o :=
  match o with
  | OVal v => HV v
  | OList l =>
      HL l ((fix go (l : list PyObj) : Forall P l :=
               match l with
               | [] => @List.Forall_nil _ P
               | x :: l' =>
                   @List.Forall_cons _ P x l'
                     (PyObj_nested_ind P HV HL HD x) (go l')
               end) l)
  | ODict d =>
      HD d ((fix go (d : list (string * PyObj))
               : Forall (fun kv => P (snd kv)) d :=
               match d with
               | [] => @List.Forall_nil _ (fun kv => P (snd kv))
               | kv :: d' =>
                   @List.Forall_cons _ (fun kv => P (snd kv)) kv d'
                     (PyObj_nested_ind P HV HL HD (snd kv)) (go d')
               end) d)
  end.

Lemma encode_printable o : all_printable (Json.encode o) = true.
Proof.
  induction o as [v|l IH|d IH] using PyObj_nested_ind.
  - apply encode_val_printable.
  - cbn [Json.encode]. rewrite !all_printable_app, sep_concat_printable;
      [reflexivity | reflexivity |].
    induction IH; constructor; assumption.
  - cbn [Json.encode]. rewrite !all_printable_app, sep_concat_printable;
      [reflexivity | reflexivity |].
    induction IH as [|kv d Hkv _ IHd]; constructor; [|exact IHd].
    rewrite !all_printable_app, encode_str_printable, Hkv. reflexivity.
Qed.

(** X14. Whatever the designations, names and times are, the text that a
    successful [write_to_json] leaves in the destination is made of
    printable ASCII characters only: no line feed, no control character
    and no character above 126 reaches the file. *)
Theorem json_file_is_ascii results filename fs fs' :
  write_to_json results filename fs = (fs', OK tt) ->
  exists text, fs' !! filename = Some text /\ all_printable text = true.
Proof.
  rewrite write_to_json_any.
  destruct (mapM json_element results) as [elems|e]; [|discriminate].
  destruct (writable filename); [|discriminate].
  intros [= <-]. eexists. split; [apply lookup_insert_eq|].
  exact (encode_printable (OList (map ODict elems))).
Qed.

End WithHelpers.

End WriteMoreFacts.

(** * The claims on the records of the examples *)

Module Witnesses.
Import Py Models Write Scenario ModelsFacts WriteFacts.

Local Abbreviation dts := Helpers.datetime_to_str.
Local Abbreviation cd := Helpers.cd_to_datetime.
Local Abbreviation DT := Helpers.datetime.

Ltac run := vm_compute; reflexivity.

Ltac is_present := split; run.

Ltac is_absent := first [left; run | right; eexists; split; run].

(** The constructors on the records of the examples. *)
Lemma eros_constructed : NearEarthObject_init eros_info = OK eros.
Proof. run. Defined.

Lemma nameless_constructed : NearEarthObject_init nameless_info = OK nameless.
Proof. run. Defined.

Lemma zero_diameter_constructed :
  NearEarthObject_init zero_diameter_info = OK zero_diameter.
Proof. run. Defined.

Lemma unlinked_constructed : CloseApproach_init cd approach_info = OK unlinked.
Proof. run. Defined.

Lemma unmeasured_constructed :
  CloseApproach_init cd unmeasured_info = OK unmeasured_unlinked.
Proof. run. Defined.

(** The end-to-end scenario: one NEO linked to one approach. *)
Example end_to_end_csv :
  write_to_csv DT dts any_path [approach] "out.csv" ∅
  = ({[ "out.csv" :=
        header_line +:+ nl
        +:+ "2025-01-01 06:00,0.15,5.02,433,Eros,16.84,False" +:+ nl ]},
     OK tt).
Proof. run. Qed.

Example end_to_end_json :
  write_to_json DT dts any_path [approach] "out.json" ∅
  = ({[ "out.json" :=
        "[{" +:+ Json.quote +:+ "datetime_utc" +:+ Json.quote +:+ ": "
        +:+ Json.quote +:+ "2025-01-01 06:00" +:+ Json.quote +:+ ", "
        +:+ Json.quote +:+ "distance_au" +:+ Json.quote +:+ ": 0.15, "
        +:+ Json.quote +:+ "velocity_km_s" +:+ Json.quote +:+ ": 5.02, "
        +:+ Json.quote +:+ "neo" +:+ Json.quote +:+ ": {"
        +:+ Json.quote +:+ "designation" +:+ Json.quote +:+ ": "
        +:+ Json.quote +:+ "433" +:+ Json.quote +:+ ", "
        +:+ Json.quote +:+ "name" +:+ Json.quote +:+ ": "
        +:+ Json.quote +:+ "Eros" +:+ Json.quote +:+ ", "
        +:+ Json.quote +:+ "diameter_km" +:+ Json.quote +:+ ": 16.84, "
        +:+ Json.quote +:+ "potentially_hazardous" +:+ Json.quote
        +:+ ": false}}]" ]},
     OK tt).
Proof. run. Qed.

(** ** C1 and C2 on a row *)

Definition unmeasured_fields : list PyVal :=
  [VStr "an unknown time"; VStr EmptyString; VStr EmptyString;
   VStr "2020 AB"; VStr EmptyString; VStr "nan"; VStr "True"].

Lemma unmeasured_result_str : result_str DT dts unmeasured = OK unmeasured_fields.
Proof. run. Defined.

Definition near_fields : list PyVal :=
  [VStr "2025-01-01 06:00"; VStr "0.3312"; VStr EmptyString;
   VStr "433"; VStr "Eros"; VStr "16.84"; VStr "False"].

Lemma near_result_str : result_str DT dts near = OK near_fields.
Proof. run. Defined.

(** C1 on the approach without measurements, where both columns are
    empty, and on the approach at the distance [0.3312]. *)
Lemma csv_distance_velocity_columns_witness :
  (result_str DT dts unmeasured = OK unmeasured_fields
   /\ exists t d v des nm dm hz,
     unmeasured_fields = [VStr t; VStr d; VStr v; des; nm; VStr dm; VStr hz]
     /\ (d = EmptyString <-> float_eq (distance unmeasured) fzero = true)
     /\ (float_eq (distance unmeasured) fzero = false ->
         d = float_str (distance unmeasured))
     /\ (v = EmptyString <-> float_eq (velocity unmeasured) fzero = true)
     /\ (float_eq (velocity unmeasured) fzero = false ->
         v = float_str (velocity unmeasured))
     /\ (distance unmeasured = S754_zero false -> d = EmptyString)
     /\ (py_float (VStr "0.3312") = OK (distance unmeasured) ->
         d = "0.3312"))
  /\ (result_str DT dts near = OK near_fields
   /\ py_float (VStr "0.3312") = OK (distance near)
   /\ exists t d v des nm dm hz,
     near_fields = [VStr t; VStr d; VStr v; des; nm; VStr dm; VStr hz]
     /\ d = "0.3312" /\ v = EmptyString).
Proof.
  split.
  - split; [exact unmeasured_result_str|].
    exact (csv_distance_velocity_columns DT dts unmeasured unmeasured_fields
             unmeasured_result_str).
  - assert (E : py_float (VStr "0.3312") = OK (distance near)) by run.
    split; [exact near_result_str|]. split; [exact E|].
    destruct (csv_distance_velocity_columns DT dts near near_fields
                near_result_str)
      as (t & d & v & des & nm & dm & hz & Hf & _ & _ & Hv & _ & _ & Hd).
    exists t, d, v, des, nm, dm, hz.
    split; [exact Hf|]. split; [exact (Hd E)|].
    apply Hv. reflexivity.
Defined.

(** C2 on the same approach: the NaN diameter prints as [nan]. *)
Lemma csv_diameter_hazardous_columns_witness :
  result_str DT dts unmeasured = OK unmeasured_fields
  /\ neo unmeasured = Some nameless
  /\ exists t d v des nm dm hz,
    unmeasured_fields = [VStr t; VStr d; VStr v; des; nm; VStr dm; VStr hz]
    /\ (dm = EmptyString <-> float_eq (diameter nameless) fzero = true)
    /\ (float_eq (diameter nameless) fzero = false ->
        dm = float_str (diameter nameless))
    /\ (float_is_nan (diameter nameless) = true -> dm = "nan")
    /\ hz = (if hazardous nameless then "True" else "False")
    /\ hz <> EmptyString.
Proof.
  split; [exact unmeasured_result_str|]. split; [reflexivity|].
  exact (csv_diameter_hazardous_columns DT dts unmeasured unmeasured_fields
           nameless unmeasured_result_str eq_refl).
Defined.

(** ** C3 *)

(** The claim as stated fails: with a designation and a diameter that is
    not a number, construction does not succeed. *)
Lemma designation_present_yet_no_object :
  present bad_diameter_info "pdes" (VStr "433")
  /\ NearEarthObject_init bad_diameter_info = Raise ValueError
  /\ ~ (exists n, NearEarthObject_init bad_diameter_info = OK n
                  /\ designation n = VStr "433").
Proof.
  split; [is_present|]. split; [run|].
  intros (n & Hn & _). vm_compute in Hn. discriminate Hn.
Qed.

Lemma designation_required_witness :
  (absent_or_falsy no_pdes_info "pdes"
   /\ NearEarthObject_init no_pdes_info = Raise (KeyError pdes_missing))
  /\ (absent_or_falsy no_des_info "des"
   /\ CloseApproach_init cd no_des_info = Raise (KeyError des_missing))
  /\ (present eros_info "pdes" (VStr "433")
   /\ converts eros_info "diameter"
   /\ exists n, NearEarthObject_init eros_info = OK n
                /\ designation n = VStr "433")
  /\ (present approach_info "des" (VStr "433")
   /\ cd_converts cd approach_info
   /\ converts approach_info "dist" /\ converts approach_info "v_rel"
   /\ exists c, CloseApproach_init cd approach_info = OK c
                /\ _designation c = VStr "433").
Proof.
  assert (H1 : absent_or_falsy no_pdes_info "pdes") by is_absent.
  assert (H2 : absent_or_falsy no_des_info "des") by is_absent.
  assert (H3 : present eros_info "pdes" (VStr "433")) by is_present.
  assert (H4 : converts eros_info "diameter").
  { right. eexists _, _. split; [is_present | run]. }
  assert (H5 : present approach_info "des" (VStr "433")) by is_present.
  assert (H6 : cd_converts cd approach_info).
  { right. eexists _, _. split; [is_present | run]. }
  assert (H7 : converts approach_info "dist").
  { right. eexists _, _. split; [is_present | run]. }
  assert (H8 : converts approach_info "v_rel").
  { right. eexists _, _. split; [is_present | run]. }
  pose proof (designation_required DT cd) as (T1 & T2 & T3 & T4).
  split; [exact (conj H1 (T1 _ H1))|].
  split; [exact (conj H2 (T2 _ H2))|].
  split.
  - split; [exact H3|]. split; [exact H4|].
    exact (proj2 (T3 _ _ H3) H4).
  - split; [exact H5|]. split; [exact H6|]. split; [exact H7|].
    split; [exact H8|]. exact (proj2 (T4 _ _ H5) H6 H7 H8).
Defined.

(** ** C5, C6, C7 *)

Lemma neo_serialize_constructed_witness :
  NearEarthObject_init nameless_info = OK nameless
  /\ NearEarthObject_serialize nameless =
     [("designation", OVal (VStr "2020 AB"));
      ("name", OVal (VStr EmptyString));
      ("diameter_km", OVal (VFloat S754_nan));
      ("potentially_hazardous", OVal (VBool true))].
Proof.
  split; [exact nameless_constructed|].
  exact (proj1 (neo_serialize_constructed nameless_info nameless
                  nameless_constructed)).
Defined.

Lemma hazardous_iff_Y_witness :
  (NearEarthObject_init nameless_info = OK nameless
   /\ (hazardous nameless = true <-> nameless_info !! "pha" = Some (VStr "Y")))
  /\ (NearEarthObject_init eros_info = OK eros
   /\ eros_info !! "pha" <> Some (VStr "Y")
   /\ hazardous eros = false).
Proof.
  assert (HN : eros_info !! "pha" <> Some (VStr "Y")).
  { intros H. vm_compute in H. discriminate H. }
  split.
  - split; [exact nameless_constructed|].
    exact (proj1 (hazardous_iff_Y nameless_info nameless nameless_constructed)).
  - split; [exact eros_constructed|]. split; [exact HN|].
    exact (proj2 (hazardous_iff_Y eros_info eros eros_constructed) HN).
Defined.

Lemma default_diameter_nan_distance_zero_witness :
  (NearEarthObject_init nameless_info = OK nameless
   /\ absent_or_falsy nameless_info "diameter"
   /\ diameter nameless = S754_nan)
  /\ (NearEarthObject_init zero_diameter_info = OK zero_diameter
   /\ zero_diameter_info !! "diameter" = Some (VStr "0")
   /\ diameter zero_diameter = S754_zero false)
  /\ (CloseApproach_init cd unmeasured_info = OK unmeasured_unlinked
   /\ absent_or_falsy unmeasured_info "dist"
   /\ absent_or_falsy unmeasured_info "v_rel"
   /\ distance unmeasured_unlinked = S754_zero false
   /\ velocity unmeasured_unlinked = S754_zero false).
Proof.
  assert (H1 : absent_or_falsy nameless_info "diameter") by is_absent.
  assert (H2 : zero_diameter_info !! "diameter" = Some (VStr "0")) by run.
  assert (H3 : absent_or_falsy unmeasured_info "dist") by is_absent.
  assert (H4 : absent_or_falsy unmeasured_info "v_rel") by is_absent.
  pose proof (default_diameter_nan_distance_zero DT cd) as (T1 & T2 & _ & T4).
  split; [|split].
  - split; [exact nameless_constructed|]. split; [exact H1|].
    exact (proj1 (T1 _ _ nameless_constructed H1)).
  - split; [exact zero_diameter_constructed|]. split; [exact H2|].
    exact (proj1 (T2 _ _ zero_diameter_constructed H2)).
  - split; [exact unmeasured_constructed|].
    split; [exact H3|]. split; [exact H4|].
    split; [exact (proj1 (proj1 (T4 _ _ unmeasured_constructed) H3))
           | exact (proj1 (proj2 (T4 _ _ unmeasured_constructed) H4))].
Defined.

(** ** C8 *)

(** The claim as stated fails: with a diameter that is not a number and no
    designation, the error raised is the missing-designation [KeyError],
    not the conversion error. *)
Lemma bad_diameter_yet_KeyError :
  present no_pdes_info "diameter" (VStr "abc")
  /\ py_float (VStr "abc") = Raise ValueError
  /\ NearEarthObject_init no_pdes_info = Raise (KeyError pdes_missing)
  /\ NearEarthObject_init no_pdes_info <> Raise ValueError.
Proof.
  split; [is_present|]. split; [run|]. split; [run|].
  intros H. vm_compute in H. discriminate H.
Qed.

Lemma conversion_errors_propagate_witness :
  (present bad_diameter_info "pdes" (VStr "433")
   /\ present bad_diameter_info "diameter" (VStr "abc")
   /\ py_float (VStr "abc") = Raise ValueError
   /\ NearEarthObject_init bad_diameter_info = Raise ValueError)
  /\ (present bad_dist_info "des" (VStr "433")
   /\ cd_converts cd bad_dist_info
   /\ present bad_dist_info "dist" (VStr "abc")
   /\ CloseApproach_init cd bad_dist_info = Raise ValueError)
  /\ (present bad_v_rel_info "des" (VStr "433")
   /\ cd_converts cd bad_v_rel_info
   /\ converts bad_v_rel_info "dist"
   /\ present bad_v_rel_info "v_rel" (VStr "abc")
   /\ CloseApproach_init cd bad_v_rel_info = Raise ValueError)
  /\ (present nameless_info "pdes" (VStr "2020 AB")
   /\ converts nameless_info "diameter"
   /\ exists n, NearEarthObject_init nameless_info = OK n
      /\ (absent_or_falsy nameless_info "name" -> name n = VNone)
      /\ (absent_or_falsy nameless_info "diameter" -> diameter n = S754_nan)
      /\ (absent_or_falsy nameless_info "pha" -> hazardous n = false))
  /\ (present unmeasured_info "des" (VStr "2020 AB")
   /\ cd_converts cd unmeasured_info
   /\ converts unmeasured_info "dist" /\ converts unmeasured_info "v_rel"
   /\ exists c, CloseApproach_init cd unmeasured_info = OK c
      /\ (absent_or_falsy unmeasured_info "cd" -> time c = None)
      /\ (absent_or_falsy unmeasured_info "dist" ->
          distance c = S754_zero false)
      /\ (absent_or_falsy unmeasured_info "v_rel" ->
          velocity c = S754_zero false)).
Proof.
  assert (E : py_float (VStr "abc") = Raise ValueError) by run.
  assert (A1 : present bad_diameter_info "pdes" (VStr "433")) by is_present.
  assert (A2 : present bad_diameter_info "diameter" (VStr "abc"))
    by is_present.
  assert (B1 : present bad_dist_info "des" (VStr "433")) by is_present.
  assert (B2 : cd_converts cd bad_dist_info) by (left; is_absent).
  assert (B3 : present bad_dist_info "dist" (VStr "abc")) by is_present.
  assert (C1 : present bad_v_rel_info "des" (VStr "433")) by is_present.
  assert (C2 : cd_converts cd bad_v_rel_info) by (left; is_absent).
  assert (C3 : converts bad_v_rel_info "dist") by (left; is_absent).
  assert (C4 : present bad_v_rel_info "v_rel" (VStr "abc")) by is_present.
  assert (D1 : present nameless_info "pdes" (VStr "2020 AB")) by is_present.
  assert (D2 : converts nameless_info "diameter") by (left; is_absent).
  assert (E1 : present unmeasured_info "des" (VStr "2020 AB")) by is_present.
  assert (E2 : cd_converts cd unmeasured_info) by (left; is_absent).
  assert (E3 : converts unmeasured_info "dist") by (left; is_absent).
  assert (E4 : converts unmeasured_info "v_rel") by (left; is_absent).
  pose proof (conversion_errors_propagate DT cd) as (T1 & T2 & T3 & T4 & T5).
  split; [|split; [|split; [|split]]].
  - split; [exact A1|]. split; [exact A2|]. split; [exact E|].
    exact (T1 _ _ _ _ A1 A2 E).
  - split; [exact B1|]. split; [exact B2|]. split; [exact B3|].
    exact (T2 _ _ _ _ B1 B2 B3 E).
  - split; [exact C1|]. split; [exact C2|]. split; [exact C3|].
    split; [exact C4|]. exact (T3 _ _ _ _ C1 C2 C3 C4 E).
  - split; [exact D1|]. split; [exact D2|]. exact (T4 _ _ D1 D2).
  - split; [exact E1|]. split; [exact E2|]. split; [exact E3|].
    split; [exact E4|]. exact (T5 _ _ E1 E2 E3 E4).
Defined.

(** ** C9, C4, C10 *)

Lemma approach_renderable : renderable DT dts approach.
Proof.
  split; [|split].
  - exists eros. split; [reflexivity|]. right. exists "Eros". reflexivity.
  - eexists. run.
  - exists "433". reflexivity.
Defined.

Lemma unmeasured_renderable : renderable DT dts unmeasured.
Proof.
  split; [|split].
  - exists nameless. split; [reflexivity|]. left. reflexivity.
  - eexists. run.
  - exists "2020 AB". reflexivity.
Defined.

(** Three records, one of them twice: three rows, in the order given. *)
Lemma csv_header_then_rows_witness :
  any_path "out.csv" = true
  /\ Forall (renderable DT dts) [approach; unmeasured; approach]
  /\ exists lines,
    Forall2 (row_of DT dts) [approach; unmeasured; approach] lines
    /\ List.length lines = 3%nat
    /\ write_to_csv DT dts any_path [approach; unmeasured; approach]
         "out.csv" ∅
       = (<["out.csv" := header_line +:+ nl +:+ concat_lines lines]> ∅,
          OK tt).
Proof.
  assert (H : Forall (renderable DT dts) [approach; unmeasured; approach]).
  { repeat (apply List.Forall_cons;
              [first [exact approach_renderable
                     | exact unmeasured_renderable] |]).
    apply List.Forall_nil. }
  split; [reflexivity|]. split; [exact H|].
  exact (csv_header_then_rows DT dts any_path
           [approach; unmeasured; approach] "out.csv" ∅ eq_refl H).
Defined.

Example three_rows_csv :
  write_to_csv DT dts any_path [approach; unmeasured; approach] "out.csv" ∅
  = ({[ "out.csv" :=
        header_line +:+ nl
        +:+ "2025-01-01 06:00,0.15,5.02,433,Eros,16.84,False" +:+ nl
        +:+ "an unknown time,,,2020 AB,,nan,True" +:+ nl
        +:+ "2025-01-01 06:00,0.15,5.02,433,Eros,16.84,False" +:+ nl ]},
     OK tt).
Proof. run. Qed.

Lemma approach_serializable : serializable DT dts approach.
Proof. split; [exists eros; reflexivity | eexists; run]. Defined.

Lemma unmeasured_serializable : serializable DT dts unmeasured.
Proof. split; [exists nameless; reflexivity | eexists; run]. Defined.

Lemma json_array_of_elements_witness :
  (any_path "out.json" = true
   /\ Forall (serializable DT dts) [approach; unmeasured]
   /\ exists elems,
     Forall2 (element_of DT dts) [approach; unmeasured] elems
     /\ write_to_json DT dts any_path [approach; unmeasured] "out.json" old_fs
        = (<["out.json" := Json.encode (OList (map ODict elems))]> old_fs,
           OK tt))
  /\ write_to_json DT dts any_path [] "out.json" old_fs
     = (<["out.json" := "[]"]> old_fs, OK tt).
Proof.
  assert (H : Forall (serializable DT dts) [approach; unmeasured]).
  { repeat (apply List.Forall_cons;
              [first [exact approach_serializable
                     | exact unmeasured_serializable] |]).
    apply List.Forall_nil. }
  pose proof (json_array_of_elements DT dts any_path) as [T1 T2].
  split.
  - split; [reflexivity|]. split; [exact H|].
    exact (T1 [approach; unmeasured] "out.json" old_fs eq_refl H).
  - exact (T2 "out.json" old_fs eq_refl).
Defined.

(** An approach that is not linked yet, between two that are: the error
    is raised and the older file is still there, untouched. *)
Lemma json_serializes_before_open_witness :
  Forall (serializable DT dts) [approach]
  /\ json_element DT dts unlinked = Raise AttributeError
  /\ write_to_json DT dts any_path [approach; unlinked; approach]
       "out.json" old_fs
     = (old_fs, Raise AttributeError)
  /\ old_fs !! "out.json" = Some "old".
Proof.
  assert (H : Forall (serializable DT dts) [approach]).
  { apply List.Forall_cons; [exact approach_serializable | apply List.Forall_nil]. }
  pose proof (json_serializes_before_open DT dts any_path) as [T1 T2].
  assert (E : json_element DT dts unlinked = Raise AttributeError).
  { exact (T2 unlinked eq_refl). }
  split; [exact H|]. split; [exact E|]. split.
  - exact (T1 [approach] unlinked [approach] AttributeError "out.json"
             old_fs H E).
  - run.
Defined.

End Witnesses.

(** * The further properties on the records of the examples *)

Module MoreWitnesses.
Import Py Models Write Render WriteMore Scenario MoreScenario.
Import PyFacts ModelsFacts WriteFacts RenderFacts WriteMoreFacts.

Local Abbreviation dts := Helpers.datetime_to_str.
Local Abbreviation cd := Helpers.cd_to_datetime.
Local Abbreviation DT := Helpers.datetime.

Ltac run := vm_compute; reflexivity.

Ltac is_present := split; run.

Ltac is_absent := first [left; run | right; eexists; split; run].

Lemma eros_made : NearEarthObject_init eros_info = OK eros.
Proof. run. Defined.

Lemma nameless_made : NearEarthObject_init nameless_info = OK nameless.
Proof. run. Defined.

Lemma unmeasured_made :
  CloseApproach_init cd unmeasured_info = OK unmeasured_unlinked.
Proof. run. Defined.

Lemma unlinked_made : CloseApproach_init cd approach_info = OK unlinked.
Proof. run. Defined.

Lemma approach_row :
  row_of DT dts approach
    ("2025-01-01 06:00,0.15,5.02,433,Eros,16.84,False" +:+ nl).
Proof. eexists _, _. split; [run|]. split; [run | reflexivity]. Defined.

Lemma approach_is_serializable : serializable DT dts approach.
Proof. split; [exists eros; reflexivity | eexists; run]. Defined.

(** X1: a key the constructor does not read changes nothing. *)
Lemma constructors_read_four_keys_witness :
  (forall k, k ∈ ["pdes"; "name"; "diameter"; "pha"] ->
             eros_info !! k = eros_info_with_orbit !! k)
  /\ NearEarthObject_init eros_info
     = NearEarthObject_init eros_info_with_orbit
  /\ (forall k, k ∈ ["des"; "cd"; "dist"; "v_rel"] ->
             approach_info !! k = <["pha" := VStr "Y"]> approach_info !! k)
  /\ CloseApproach_init cd approach_info
     = CloseApproach_init cd (<["pha" := VStr "Y"]> approach_info).
Proof.
  assert (H1 : forall k, k ∈ ["pdes"; "name"; "diameter"; "pha"] ->
                 eros_info !! k = eros_info_with_orbit !! k).
  { intros k Hk. repeat (apply elem_of_cons in Hk as [-> | Hk]);
      [run | run | run | run | apply elem_of_nil in Hk; destruct Hk]. }
  assert (H2 : forall k, k ∈ ["des"; "cd"; "dist"; "v_rel"] ->
                 approach_info !! k
                 = <["pha" := VStr "Y"]> approach_info !! k).
  { intros k Hk. repeat (apply elem_of_cons in Hk as [-> | Hk]);
      [run | run | run | run | apply elem_of_nil in Hk; destruct Hk]. }
  pose proof (constructors_read_four_keys DT cd) as [T1 T2].
  split; [exact H1|]. split; [exact (T1 _ _ H1)|].
  split; [exact H2 | exact (T2 _ _ H2)].
Defined.

(** X2 on the nameless NEO and on the approach without measurements. *)
Lemma constructed_invariants_witness :
  (NearEarthObject_init nameless_info = OK nameless
   /\ truthy (designation nameless) = true
   /\ (name nameless = VNone \/ truthy (name nameless) = true)
   /\ approaches nameless = [])
  /\ (CloseApproach_init cd unmeasured_info = OK unmeasured_unlinked
   /\ truthy (_designation unmeasured_unlinked) = true
   /\ neo unmeasured_unlinked = None
   /\ (time unmeasured_unlinked = None
       <-> absent_or_falsy unmeasured_info "cd")).
Proof.
  pose proof (constructed_invariants DT cd) as [T1 T2].
  split.
  - split; [exact nameless_made | exact (T1 _ _ nameless_made)].
  - split; [exact unmeasured_made | exact (T2 _ _ unmeasured_made)].
Defined.

(** X3 on Eros, which has a name, and on the NEO with an empty name. *)
Lemma fullname_constructed_witness :
  (NearEarthObject_init eros_info = OK eros
   /\ eros_info !! "pdes" = Some (VStr "433")
   /\ eros_info !! "name" = Some (VStr "Eros")
   /\ fullname eros = "433 (Eros)")
  /\ (NearEarthObject_init nameless_info = OK nameless
   /\ nameless_info !! "pdes" = Some (VStr "2020 AB")
   /\ absent_or_falsy nameless_info "name"
   /\ fullname nameless = "2020 AB").
Proof.
  assert (E1 : eros_info !! "pdes" = Some (VStr "433")) by run.
  assert (E2 : eros_info !! "name" = Some (VStr "Eros")) by run.
  assert (E3 : "Eros" <> EmptyString) by discriminate.
  assert (N1 : nameless_info !! "pdes" = Some (VStr "2020 AB")) by run.
  assert (N2 : absent_or_falsy nameless_info "name") by is_absent.
  split.
  - split; [exact eros_made|]. split; [exact E1|]. split; [exact E2|].
    exact (proj2 (fullname_constructed eros_info eros "433" eros_made E1)
             "Eros" E2 E3).
  - split; [exact nameless_made|]. split; [exact N1|]. split; [exact N2|].
    exact (proj1 (fullname_constructed nameless_info nameless "2020 AB"
                    nameless_made N1) N2).
Defined.

(** X4 and X5 on the NEO without name and diameter. *)
Lemma neo_str_unknown_diameter_witness :
  NearEarthObject_init nameless_info = OK nameless
  /\ absent_or_falsy nameless_info "diameter"
  /\ NearEarthObject_str nameless =
     "NEO " +:+ fullname nameless +:+ " has a diameter of nan km and "
     +:+ (if hazardous nameless then "is" else "is not")
     +:+ " potentially hazardous.".
Proof.
  assert (H : absent_or_falsy nameless_info "diameter") by is_absent.
  split; [exact nameless_made|]. split; [exact H|].
  exact (neo_str_unknown_diameter nameless_info nameless nameless_made H).
Defined.

Example nameless_str :
  NearEarthObject_str nameless
  = "NEO 2020 AB has a diameter of nan km and is potentially hazardous.".
Proof. run. Qed.

Example eros_str :
  NearEarthObject_str eros
  = "NEO 433 (Eros) has a diameter of 16.840 km and is not potentially hazardous.".
Proof. run. Qed.

Lemma neo_repr_defaults_witness :
  NearEarthObject_init nameless_info = OK nameless
  /\ nameless_info !! "pdes" = Some (VStr "2020 AB")
  /\ absent_or_falsy nameless_info "name"
  /\ absent_or_falsy nameless_info "diameter"
  /\ NearEarthObject_repr nameless =
     "NearEarthObject(designation=" +:+ str_repr "2020 AB"
     +:+ ", name=None, diameter=nan, hazardous="
     +:+ (if hazardous nameless then "True" else "False") +:+ ")".
Proof.
  assert (N1 : nameless_info !! "pdes" = Some (VStr "2020 AB")) by run.
  assert (N2 : absent_or_falsy nameless_info "name") by is_absent.
  assert (N3 : absent_or_falsy nameless_info "diameter") by is_absent.
  split; [exact nameless_made|]. split; [exact N1|]. split; [exact N2|].
  split; [exact N3|].
  exact (neo_repr_defaults nameless_info nameless "2020 AB"
           nameless_made N1 N2 N3).
Defined.

(** X6 and X7 on the approach of the scenario before it is linked. *)
Lemma approach_str_needs_neo_witness :
  CloseApproach_init cd approach_info = OK unlinked
  /\ neo unlinked = None
  /\ time_str dts unlinked = OK "2025-01-01 06:00"
  /\ CloseApproach_str dts unlinked = Raise AttributeError
  /\ CloseApproach_str dts unlinked <> OK "At 2025-01-01 06:00".
Proof.
  assert (Ht : time_str dts unlinked = OK "2025-01-01 06:00") by run.
  pose proof (approach_str_needs_neo DT cd dts) as (T1 & T2 & T3).
  split; [exact unlinked_made|]. split; [reflexivity|]. split; [exact Ht|].
  split; [exact (T2 unlinked _ eq_refl Ht)|].
  exact (T3 approach_info unlinked _ unlinked_made).
Defined.

Example approach_str :
  CloseApproach_str dts approach
  = OK "At 2025-01-01 06:00, '433 (Eros)' approaches Earth at a distance of 0.15 au and a velocity of 5.02 km/s.".
Proof. run. Qed.

Lemma approach_repr_before_linkage_witness :
  CloseApproach_init cd unmeasured_info = OK unmeasured_unlinked
  /\ time_str dts unmeasured_unlinked = OK "an unknown time"
  /\ absent_or_falsy unmeasured_info "dist"
  /\ absent_or_falsy unmeasured_info "v_rel"
  /\ CloseApproach_repr dts unmeasured_unlinked =
     OK ("CloseApproach(time=" +:+ str_repr "an unknown time"
         +:+ ", distance=0.00, velocity=0.00, neo=None)").
Proof.
  assert (Ht : time_str dts unmeasured_unlinked = OK "an unknown time")
    by run.
  assert (Hd : absent_or_falsy unmeasured_info "dist") by is_absent.
  assert (Hv : absent_or_falsy unmeasured_info "v_rel") by is_absent.
  split; [exact unmeasured_made|]. split; [exact Ht|]. split; [exact Hd|].
  split; [exact Hv|].
  exact (approach_repr_before_linkage DT cd dts unmeasured_info
           unmeasured_unlinked _ unmeasured_made Ht Hd Hv).
Defined.

Example approach_repr :
  CloseApproach_repr dts approach
  = OK "CloseApproach(time='2025-01-01 06:00', distance=0.15, velocity=5.02, neo=NearEarthObject(designation='433', name='Eros', diameter=16.840, hazardous=False))".
Proof. run. Qed.

(** X8: the second record is not linked; the row of the first stays. *)
Lemma csv_keeps_rows_before_failure_witness :
  any_path "out.csv" = true
  /\ Forall2 (row_of DT dts) [approach]
       ["2025-01-01 06:00,0.15,5.02,433,Eros,16.84,False" +:+ nl]
  /\ csv_line DT dts unlinked = Raise AttributeError
  /\ write_to_csv DT dts any_path [approach; unlinked; approach]
       "out.csv" busy_fs
     = (<["out.csv" :=
            header_line +:+ nl
            +:+ concat_lines
                  ["2025-01-01 06:00,0.15,5.02,433,Eros,16.84,False" +:+ nl]]>
          busy_fs,
        Raise AttributeError).
Proof.
  pose proof (csv_keeps_rows_before_failure DT dts any_path) as [T1 T2].
  assert (H : Forall2 (row_of DT dts) [approach]
                ["2025-01-01 06:00,0.15,5.02,433,Eros,16.84,False" +:+ nl]).
  { apply List.Forall2_cons; [exact approach_row | apply List.Forall2_nil]. }
  assert (E : csv_line DT dts unlinked = Raise AttributeError).
  { exact (T2 unlinked eq_refl). }
  split; [reflexivity|]. split; [exact H|]. split; [exact E|].
  exact (T1 [approach] _ unlinked [approach] AttributeError "out.csv"
           busy_fs eq_refl H E).
Defined.

(** X9: nothing can be opened, nothing changes. *)
Lemma unwritable_destination_witness :
  no_path "out.csv" = false
  /\ Forall (serializable DT dts) [approach]
  /\ write_to_csv DT dts no_path [approach] "out.csv" busy_fs
     = (busy_fs, Raise OSError)
  /\ write_to_json DT dts no_path [approach] "out.csv" busy_fs
     = (busy_fs, Raise OSError).
Proof.
  assert (H : Forall (serializable DT dts) [approach]).
  { apply List.Forall_cons;
      [exact approach_is_serializable | apply List.Forall_nil]. }
  pose proof (unwritable_destination DT dts no_path [approach] "out.csv"
                busy_fs eq_refl) as [T1 T2].
  split; [reflexivity|]. split; [exact H|].
  split; [exact T1 | exact (T2 H)].
Defined.

(** X10: the notes are still there after both writers have run. *)
Lemma writers_touch_only_destination_witness :
  "notes.txt" <> "out.csv"
  /\ fst (write_to_csv DT dts any_path [approach; unlinked] "out.csv" busy_fs)
       !! "notes.txt" = busy_fs !! "notes.txt"
  /\ fst (write_to_json DT dts any_path [approach] "out.csv" busy_fs)
       !! "notes.txt" = busy_fs !! "notes.txt"
  /\ busy_fs !! "notes.txt" = Some "keep".
Proof.
  assert (H : "notes.txt" <> "out.csv") by discriminate.
  split; [exact H|].
  split; [exact (proj1 (writers_touch_only_destination DT dts any_path
                          [approach; unlinked] "out.csv" busy_fs
                          "notes.txt" H))|].
  split; [exact (proj2 (writers_touch_only_destination DT dts any_path
                          [approach] "out.csv" busy_fs "notes.txt" H))|].
  run.
Defined.

(** X11: a failed write followed by a good one. *)
Lemma last_write_wins_witness :
  write_to_csv DT dts any_path [approach] "out.csv"
    (fst (write_to_csv DT dts any_path [unlinked] "out.csv" busy_fs))
  = write_to_csv DT dts any_path [approach] "out.csv" busy_fs
  /\ Forall (serializable DT dts) [approach]
  /\ write_to_json DT dts any_path [approach] "out.csv"
       (fst (write_to_json DT dts any_path [unmeasured] "out.csv" busy_fs))
     = write_to_json DT dts any_path [approach] "out.csv" busy_fs.
Proof.
  assert (H : Forall (serializable DT dts) [approach]).
  { apply List.Forall_cons;
      [exact approach_is_serializable | apply List.Forall_nil]. }
  pose proof (last_write_wins DT dts any_path) as [T1 T2].
  split; [exact (T1 [unlinked] [approach] "out.csv" busy_fs)|].
  split; [exact H|].
  exact (T2 [unmeasured] [approach] "out.csv" busy_fs H).
Defined.

(** X12: the comma in the name gives the row a seventh comma. *)
Lemma csv_row_commas_witness :
  result_str DT dts halley_approach = OK halley_fields
  /\ join "," halley_fields = OK halley_row
  /\ count_char comma halley_row
     = (6 + list_sum (map commas_in halley_fields))%nat
  /\ count_char comma halley_row = 7%nat.
Proof.
  assert (H1 : result_str DT dts halley_approach = OK halley_fields) by run.
  assert (H2 : join "," halley_fields = OK halley_row) by run.
  split; [exact H1|]. split; [exact H2|].
  split; [exact (csv_row_commas DT dts halley_approach halley_fields
                   halley_row H1 H2)|].
  run.
Defined.

(** X13: the distance given as [0.0] leaves the column empty. *)
Lemma csv_distance_of_constructed_witness :
  CloseApproach_init cd zero_dist_info = OK zero_dist
  /\ result_str DT dts (with_neo zero_dist eros) = OK zero_dist_fields
  /\ present zero_dist_info "dist" (VStr "0.0")
  /\ py_float (VStr "0.0") = OK (S754_zero false)
  /\ zero_dist_fields !! 1%nat = Some (VStr EmptyString).
Proof.
  assert (H1 : CloseApproach_init cd zero_dist_info = OK zero_dist) by run.
  assert (H2 : result_str DT dts (with_neo zero_dist eros)
               = OK zero_dist_fields) by run.
  assert (H3 : present zero_dist_info "dist" (VStr "0.0")) by is_present.
  assert (H4 : py_float (VStr "0.0") = OK (S754_zero false)) by run.
  split; [exact H1|]. split; [exact H2|]. split; [exact H3|].
  split; [exact H4|].
  apply (proj2 (csv_distance_of_constructed DT cd dts zero_dist_info
                  zero_dist eros zero_dist_fields H1 H2)).
  right. exists (VStr "0.0"), (S754_zero false).
  split; [exact H3|]. split; [exact H4 | reflexivity].
Defined.

(** X14 on the file of the end-to-end scenario. *)
Lemma json_file_is_ascii_witness :
  write_to_json DT dts any_path [approach] "out.json" ∅
  = (fst (write_to_json DT dts any_path [approach] "out.json" ∅), OK tt)
  /\ exists text,
     fst (write_to_json DT dts any_path [approach] "out.json" ∅)
       !! "out.json" = Some text
     /\ all_printable text = true.
Proof.
  assert (H : write_to_json DT dts any_path [approach] "out.json" ∅
              = (fst (write_to_json DT dts any_path [approach] "out.json" ∅),
                 OK tt)) by run.
  split; [exact H|].
  exact (json_file_is_ascii DT dts any_path [approach] "out.json" ∅ _ H).
Defined.

End MoreWitnesses.
